(** * gomandelbrotsdl2: the escape-time raster engine of [main.go]

    A shallow embedding of the Go program and the properties its
    specification states about it.

    Numeric model.  Go's [float64] is IEEE 754 binary64, which is exactly
    Rocq's primitive [float]; every arithmetic operation of the source is
    the corresponding correctly rounded primitive, one rounding per
    operation (gc does not fuse multiply-add on amd64 at its default
    GOAMD64 level).  Go's [int64], [uint64], [int] (64 bits wide) and
    [uint8] are [Z] with the wrap-around written out. *)

From Stdlib Require Import ZArith Lia Floats Uint63.
From stdpp Require Import base list.

Set Warnings "-inexact-float".
Set Default Proof Using "Type".

Local Open Scope Z_scope.

(** ** Go's numeric types *)

Module Go.

Definition int64_min : Z := - 2 ^ 63.
Definition int64_max : Z := 2 ^ 63 - 1.

Definition in_int64 (z : Z) : bool := (int64_min <=? z) && (z <=? int64_max).
Definition in_int32 (z : Z) : bool := (- 2 ^ 31 <=? z) && (z <? 2 ^ 31).
Definition in_uint8 (z : Z) : bool := (0 <=? z) && (z <? 256).

(** Two's complement wrap-around of the signed and unsigned 64-bit types. *)
Definition wrap64 (z : Z) : Z := (z + 2 ^ 63) mod 2 ^ 64 - 2 ^ 63.
Definition wrapU64 (z : Z) : Z := z mod 2 ^ 64.

Definition int64_add (a b : Z) : Z := wrap64 (a + b).
Definition int64_sub (a b : Z) : Z := wrap64 (a - b).
Definition int64_mul (a b : Z) : Z := wrap64 (a * b).
Definition uint64_add (a b : Z) : Z := wrapU64 (a + b).

(** [float64(z)] for an [int64] (or a non-negative [int]) [z]: the nearest
    binary64 value. *)
Definition float64_of_int64 (z : Z) : float :=
  if z =? int64_min then (-0x1p63)%float
  else if z <? 0 then (- of_uint63 (Uint63.of_Z (- z)))%float
  else of_uint63 (Uint63.of_Z z).

(** The integer part of a finite float (truncation toward zero). *)
Definition truncSF (f : spec_float) : option Z :=
  match f with
  | S754_zero _ => Some 0
  | S754_finite s m e =>
      Some (cond_Zopp s (if 0 <=? e then Z.shiftl (Zpos m) e
                         else Z.shiftr (Zpos m) (- e)))
  | S754_infinity _ | S754_nan => None
  end.

Definition truncZ (f : float) : option Z := truncSF (Prim2SF f).

(** Go converts a float to an integer type by discarding the fraction.
    When the truncated value does not fit the target type the language
    leaves the result to the implementation; the functions below then give
    what gc produces on amd64.  [int] and [int64] go through CVTTSD2SQ,
    whose answer to a value out of range, or to a NaN, is [int64_min]. *)
Definition int_of_float64 (f : float) : Z :=
  match truncZ f with
  | Some t => if in_int64 t then t else int64_min
  | None => int64_min
  end.

(** [uint64] goes through [int64]: directly below 2^63, and after
    subtracting 2^63 from there on. *)
Definition uint64_of_float64 (f : float) : Z :=
  if (f <? 0x1p63)%float then wrapU64 (int_of_float64 f)
  else Z.lor (wrapU64 (int_of_float64 (f - 0x1p63)%float)) (2 ^ 63).

(** [uint8] goes through [int32] (CVTTSD2SL, which answers 2^31 out of
    range) and keeps the low byte. *)
Definition uint8_of_float64 (f : float) : Z :=
  match truncZ f with
  | Some t => if in_int32 t then t mod 256 else 0
  | None => 0
  end.

(** The case in which the language fixes the [uint8] result. *)
Definition uint8_representable (f : float) : bool :=
  match truncZ f with Some t => in_uint8 t | None => false end.

End Go.

(** ** Data model ([main.go], the framebuffer program) *)

Record Point := mkPoint {
  X : float;
  Y : float;
  Red : Z;     (* uint8 *)
  Green : Z;   (* uint8 *)
  Blue : Z     (* uint8 *)
}.

(** The zero value of the colour fields in a composite literal that only
    sets [X] and [Y]. *)
Definition PointXY (x y : float) : Point := mkPoint x y 0 0 0.

Record Settings := mkSettings {
  Width : float;
  Height : float;
  Min : float;
  Max : float;
  MaxIterations : Z;   (* int64 *)
  Center : Point
}.

(** [MandelbrotImage]; its [Width] and [Height] are [imgWidth] and
    [imgHeight] here, the names being taken by [Settings].  The mutex only
    serialises [DrawPoint]; the [Settings] pointer aliases the one
    [settings] variable of [main], which the run-loop state below carries,
    and the [Jobs] channel is the list of spawned workers of that state. *)
Record MandelbrotImage := mkImage {
  imgWidth : float;
  imgHeight : float;
  Pixels : list Z   (* []byte *)
}.

(** ** mapToRange *)

Definition mapToRange (val in_min in_max out_min out_max : float) : float :=
  ((val - in_min) * (out_max - out_min) / (in_max - in_min) + out_min)%float.

(** ** mandelbrotWorker *)

(** The starting point [(x0, y0)] of a pixel. *)
Definition workerStart (pt : Point) (settings : Settings) : float * float :=
  let i := X pt in
  let j := Y pt in
  let x := mapToRange i 0 (Width settings) (Min settings) (Max settings) in
  let y := mapToRange j 0 (Height settings) (Min settings) (Max settings) in
  let x := (x - X (Center settings))%float in
  let y := (y - Y (Center settings))%float in
  (x, y).

(** The loop [for z = 0; z < MaxIterations; z++ { ... }]: [n] is the number
    of values of [z] still to visit, [MaxIterations - z].  The result is
    [(x, y, iters)] when the loop is left, through [break] or through its
    condition. *)
Fixpoint escapeLoop (n : nat) (x0 y0 x y : float) (iters : Z)
  : float * float * Z :=
  match n with
  | O => (x, y, iters)
  | S n' =>
      let x1 := (x * x - y * y)%float in
      let y1 := (2 * x * y)%float in
      let x := (x1 + x0)%float in
      let y := (y1 + y0)%float in
      if (2 <? x + y)%float then (x, y, iters)
      else escapeLoop n' x0 y0 x y (Go.int64_add iters 1)
  end.

Definition workerIters (pt : Point) (settings : Settings) : Z :=
  let '(x0, y0) := workerStart pt settings in
  snd (escapeLoop (Z.to_nat (MaxIterations settings)) x0 y0 x0 y0 0).

(** The normalised level [col] after the floor is applied. *)
Definition workerLevel (iters maxIterations : Z) : float :=
  let col := mapToRange (Go.float64_of_int64 iters) 0
               (Go.float64_of_int64 maxIterations) 0 255 in
  if (iters =? maxIterations) || (col <? 20)%float then 0%float else col.

(** The three channel remaps, before the conversion to [uint8].  [255*255]
    and [255/2] are untyped integer constant expressions of the source:
    65025 and 127. *)
Definition redOf (col : float) : float :=
  mapToRange (col * col) 0 65025 0 255.
Definition greenOf (col : float) : float :=
  mapToRange (col / 2) 0 127 0 255.
Definition blueOf (col : float) : float :=
  mapToRange (PrimFloat.sqrt col) 0 (PrimFloat.sqrt 255) 0 255.

Definition mandelbrotWorker (pt : Point) (settings : Settings) : Point :=
  let i := X pt in
  let j := Y pt in
  let iters := workerIters pt settings in
  let col := workerLevel iters (MaxIterations settings) in
  let red := redOf col in
  let green := greenOf col in
  let blue := blueOf col in
  {| X := i; Y := j;
     Red := Go.uint8_of_float64 red;
     Green := Go.uint8_of_float64 green;
     Blue := Go.uint8_of_float64 blue |}.

(** ** The initial configuration of [main] *)

Definition settings0 : Settings :=
  {| Width := 800; Height := 800;
     Min := (-2.84)%float; Max := 2.0%float;
     MaxIterations := 200;
     Center := PointXY 0.5 0.0 |}.

(** ** The framebuffer: NewMandelbrotImage, Init, DrawPoint *)

(** What a Go call can come to: a result, a run-time panic, or (for the
    loops modelled with fuel) not enough fuel. *)
Inductive outcome (A : Type) : Type :=
  | Done (a : A)
  | Panic
  | OutOfFuel.
Arguments Done {A} a.
Arguments Panic {A}.
Arguments OutOfFuel {A}.

(** [make([]byte, n)] for [0 <= n]: [n] zero bytes. *)
Definition make_bytes (n : Z) : list Z := replicate (Z.to_nat n) 0.

(** The image [NewMandelbrotImage] builds when its [make] succeeds. *)
Definition freshImage (width height : float) : MandelbrotImage :=
  {| imgWidth := width;
     imgHeight := height;
     Pixels := make_bytes (Go.int_of_float64 (width * height * 4)%float) |}.

(** [make] panics on a negative length. *)
Definition NewMandelbrotImage (width height : float) : outcome MandelbrotImage :=
  if Go.int_of_float64 (width * height * 4)%float <? 0 then Panic
  else Done (freshImage width height).

(** [pixels[idx] = v]: an index outside the slice panics. *)
Definition store (pixels : list Z) (idx v : Z) : option (list Z) :=
  if (0 <=? idx) && (idx <? Z.of_nat (length pixels))
  then Some (<[Z.to_nat idx := v]> pixels)
  else None.

(** The body of the loop of [Init]: four stores at [i], [i+1], [i+2], [i+3]
    ([i] is a [uint64]). *)
Definition initBody (pixels : list Z) (i : Z) : option (list Z) :=
  p ← store pixels i 0;
  p ← store p (Go.uint64_add i 1) 0;
  p ← store p (Go.uint64_add i 2) 0;
  store p (Go.uint64_add i 3) 0.

(** [for i = 0; i < n; i += 4 { ... }] with [n = uint64(Width*Height)]. *)
Fixpoint initLoop (fuel : nat) (n i : Z) (pixels : list Z) : outcome (list Z) :=
  match fuel with
  | O => if i <? n then OutOfFuel else Done pixels
  | S fuel' =>
      if i <? n then
        match initBody pixels i with
        | Some pixels' => initLoop fuel' n (Go.uint64_add i 4) pixels'
        | None => Panic
        end
      else Done pixels
  end.

Definition Init (mi : MandelbrotImage) : outcome MandelbrotImage :=
  let n := Go.uint64_of_float64 (imgWidth mi * imgHeight mi)%float in
  match initLoop (Z.to_nat n) n 0 (Pixels mi) with
  | Done pixels =>
      Done {| imgWidth := imgWidth mi; imgHeight := imgHeight mi; Pixels := pixels |}
  | Panic => Panic
  | OutOfFuel => OutOfFuel
  end.

(** The index [DrawPoint] computes ([int] is 64 bits wide). *)
Definition pixelIndex (mi : MandelbrotImage) (point : Point) : Z :=
  Go.int64_add
    (Go.int64_mul
       (Go.int64_mul (Go.int_of_float64 (Y point)) (Go.int_of_float64 (imgWidth mi))) 4)
    (Go.int64_mul (Go.int_of_float64 (X point)) 4).

(** [None] is the panic of a store outside the buffer. *)
Definition DrawPoint (mi : MandelbrotImage) (point : Point) : option MandelbrotImage :=
  let idx := pixelIndex mi point in
  p ← store (Pixels mi) idx (Red point);
  p ← store p (Go.int64_add idx 1) (Green point);
  p ← store p (Go.int64_add idx 2) (Blue point);
  p ← store p (Go.int64_add idx 3) 255;
  Some {| imgWidth := imgWidth mi; imgHeight := imgHeight mi; Pixels := p |}.

(** The buffer after four successful stores at [n], [n+1], [n+2], [n+3]. *)
Definition write4 (pixels : list Z) (n : nat) (a b c d : Z) : list Z :=
  <[(n + 3)%nat := d]> (<[(n + 2)%nat := c]> (<[(n + 1)%nat := b]> (<[n := a]> pixels))).

(** ** ForceRender *)

(** The workers [ForceRender] spawns, in the order of its two loops.  It
    returns once they are spawned: [wg.Wait()] runs in a goroutine of its
    own, so nothing in the caller waits for the pass. *)
Definition ForceRender (mi : MandelbrotImage) : list Point :=
  i ← seqZ 0 (Go.int_of_float64 (imgWidth mi));
  j ← seqZ 0 (Go.int_of_float64 (imgHeight mi));
  [PointXY (Go.float64_of_int64 i) (Go.float64_of_int64 j)].

(** What one spawned worker comes to: [mandelbrotWorker] sends its point on
    [Jobs], and [imageWriter] receives it and calls [DrawPoint]. *)
Definition deliver (mi : MandelbrotImage) (settings : Settings) (pt : Point)
  : option MandelbrotImage :=
  DrawPoint mi (mandelbrotWorker pt settings).

(** ** The run loop of [main] *)

(** Key codes of the SDL binding ([sdl.K_LEFT], ...); the renderer-based
    variant of the program compares with the same numbers. *)
Definition K_q : Z := 113.
Definition K_LEFT : Z := 1073741904.
Definition K_RIGHT : Z := 1073741903.
Definition K_DOWN : Z := 1073741905.
Definition K_UP : Z := 1073741906.
Definition K_EQUALS : Z := 61.
Definition K_MINUS : Z := 45.

Inductive Event : Type :=
  | QuitEvent
  | KeyboardEvent (keyCode : Z)
  | OtherEvent.

Record MainState := mkMainState {
  settings : Settings;
  mandelbrotImg : MandelbrotImage;
  running : bool;
  updateTexture : bool;
  spawned : list Point   (* the workers spawned so far; [main] joins none *)
}.

Definition setCenterX (f : float -> float) (s : Settings) : Settings :=
  {| Width := Width s; Height := Height s; Min := Min s; Max := Max s;
     MaxIterations := MaxIterations s;
     Center := {| X := f (X (Center s)); Y := Y (Center s);
                  Red := Red (Center s); Green := Green (Center s);
                  Blue := Blue (Center s) |} |}.

Definition setCenterY (f : float -> float) (s : Settings) : Settings :=
  {| Width := Width s; Height := Height s; Min := Min s; Max := Max s;
     MaxIterations := MaxIterations s;
     Center := {| X := X (Center s); Y := f (Y (Center s));
                  Red := Red (Center s); Green := Green (Center s);
                  Blue := Blue (Center s) |} |}.

Definition zoomIn (s : Settings) : Settings :=
  {| Width := Width s; Height := Height s;
     Min := (Min s + 0.15)%float;
     Max := (Max s - 0.1)%float;
     MaxIterations := Go.int64_add (MaxIterations s) 5;
     Center := Center s |}.

Definition zoomOut (s : Settings) : Settings :=
  {| Width := Width s; Height := Height s;
     Min := (Min s - 0.15)%float;
     Max := (Max s + 0.1)%float;
     MaxIterations := Go.int64_sub (MaxIterations s) 5;
     Center := Center s |}.

(** [if keyCode == k { settings... ; updateTexture = true }] *)
Definition onKey (keyCode k : Z) (f : Settings -> Settings) (st : MainState)
  : MainState :=
  if keyCode =? k then
    {| settings := f (settings st); mandelbrotImg := mandelbrotImg st;
       running := running st; updateTexture := true; spawned := spawned st |}
  else st.

Definition stop (st : MainState) : MainState :=
  {| settings := settings st; mandelbrotImg := mandelbrotImg st;
     running := false; updateTexture := updateTexture st; spawned := spawned st |}.

(** The [switch] on one polled event. *)
Definition handleEvent (st : MainState) (event : Event) : MainState :=
  match event with
  | QuitEvent => stop st
  | KeyboardEvent keyCode =>
      let st := if keyCode =? K_q then stop st else st in
      let st := onKey keyCode K_LEFT (setCenterX (fun x => x - 0.05)%float) st in
      let st := onKey keyCode K_RIGHT (setCenterX (fun x => x + 0.05)%float) st in
      let st := onKey keyCode K_DOWN (setCenterY (fun y => y + 0.05)%float) st in
      let st := onKey keyCode K_UP (setCenterY (fun y => y - 0.05)%float) st in
      let st := onKey keyCode K_EQUALS zoomIn st in
      let st := onKey keyCode K_MINUS zoomOut st in
      st
  | OtherEvent => st
  end.

(** [for event := sdl.PollEvent(); event != nil; ...]: the events pending at
    one presentation tick, in order. *)
Definition pollEvents (st : MainState) (events : list Event) : MainState :=
  foldl handleEvent st events.

(** [if updateTexture { mandelbrotImg.ForceRender(); updateTexture = false }] *)
Definition renderIfDirty (st : MainState) : MainState :=
  if updateTexture st then
    {| settings := settings st; mandelbrotImg := mandelbrotImg st;
       running := running st; updateTexture := false;
       spawned := spawned st ++ ForceRender (mandelbrotImg st) |}
  else st.

(** One iteration of [for running { ... }]; the texture upload, the delay
    and the presentation calls do not touch this state. *)
Definition tick (st : MainState) (events : list Event) : MainState :=
  renderIfDirty (pollEvents st events).

Definition outcome_bind {A B : Type} (o : outcome A) (f : A -> outcome B)
  : outcome B :=
  match o with
  | Done a => f a
  | Panic => Panic
  | OutOfFuel => OutOfFuel
  end.

(** The state in which the run loop is entered: [ForceRender] has been
    called once, [running := true] and [updateTexture := false]. *)
Definition loopEntry (mi : MandelbrotImage) : MainState :=
  {| settings := settings0; mandelbrotImg := mi;
     running := true; updateTexture := false;
     spawned := ForceRender mi |}.

(** [main] up to the run loop: the image is created, the writer goroutine
    is started and [Init] is called on the image. *)
Definition mainStart : outcome MainState :=
  outcome_bind (NewMandelbrotImage (Width settings0) (Height settings0))
    (fun mi => outcome_bind (Init mi) (fun mi => Done (loopEntry mi))).

(** The run loop over the event batches of successive ticks; it stops at
    the first tick that leaves [running] false. *)
Fixpoint runLoop (st : MainState) (ticks : list (list Event)) : MainState :=
  match ticks with
  | [] => st
  | events :: rest =>
      if running st then runLoop (tick st events) rest else st
  end.

(** ** The renderer-based variant of the program

    The first program of [main.go] draws through an SDL renderer and waits
    for every pass; its evaluator is the same, its initial plane is not. *)
Module RendererVariant.

Definition settings0 : Settings :=
  {| Width := 800; Height := 800;
     Min := (-1.00)%float; Max := 1.00%float;
     MaxIterations := 200;
     Center := PointXY 0.5 0.0 |}.

End RendererVariant.

(** ** The evaluator as the specification words it (section 4.1) *)
Module Spec.

Definition map (v inMin inMax outMin outMax : float) : float :=
  ((v - inMin) * (outMax - outMin) / (inMax - inMin) + outMin)%float.

(** Steps 1 and 2: the pixel mapped into the plane, minus the centre. *)
Definition start (pixelX pixelY : float) (config : Settings) : float * float :=
  ((map pixelX 0 (Width config) (Min config) (Max config)
    - X (Center config))%float,
   (map pixelY 0 (Height config) (Min config) (Max config)
    - Y (Center config))%float).

(** Step 3: [xNext = x*x - y*y + x0], [yNext = 2*x*y + y0]. *)
Definition next (x0 y0 : float) (p : float * float) : float * float :=
  let '(x, y) := p in
  ((x * x - y * y + x0)%float, (2 * x * y + y0)%float).

(** The running point after [k] updates. *)
Fixpoint orbit (x0 y0 : float) (k : nat) : float * float :=
  match k with
  | O => (x0, y0)
  | S k' => next x0 y0 (orbit x0 y0 k')
  end.

(** Step 4: the escape test [x + y > 2] on the point after [k] updates. *)
Definition escaped (x0 y0 : float) (k : nat) : bool :=
  let '(x, y) := orbit x0 y0 k in (2 <? x + y)%float.

(** Step 6: the channel remaps, with [255/2] the real number 127.5 (section
    8: [map(255/2, 0, 127.5, 0, 255) = 255]). *)
Definition red (level : float) : float :=
  map (level * level) 0 (255 * 255) 0 255.
Definition green (level : float) : float :=
  map (level / 2) 0 (255 / 2) 0 255.
Definition blue (level : float) : float :=
  map (PrimFloat.sqrt level) 0 (PrimFloat.sqrt 255) 0 255.

End Spec.

(** ** Predicates used by the statements *)

(** The configuration invariant of the data model. *)
Definition configInvariant (s : Settings) : Prop :=
  (Min s <? Max s)%float = true /\ 1 <= MaxIterations s /\
  (1 <=? Width s)%float = true /\ (1 <=? Height s)%float = true.

(** The [(in_min, in_max)] arguments of the six calls of [mapToRange] in
    [mandelbrotWorker], in program order. *)
Definition workerMapCalls (settings : Settings) : list (float * float) :=
  [ (0%float, Width settings);
    (0%float, Height settings);
    (0%float, Go.float64_of_int64 (MaxIterations settings));
    (0%float, 65025%float);
    (0%float, 127%float);
    (0%float, PrimFloat.sqrt 255) ].

Definition isZoom (e : Event) : bool :=
  match e with
  | KeyboardEvent k => (k =? K_EQUALS) || (k =? K_MINUS)
  | _ => false
  end.

(** Zoom-in events minus zoom-out events of a sequence. *)
Fixpoint zoomBalance (events : list Event) : Z :=
  match events with
  | [] => 0
  | KeyboardEvent k :: rest =>
      (if k =? K_EQUALS then 1 else if k =? K_MINUS then -1 else 0) + zoomBalance rest
  | _ :: rest => zoomBalance rest
  end.

(** The binary64 representation of a positive integer of at most 53 bits:
    the mantissa shifted up to 53 bits. *)
Definition SFofpos (s : bool) (p : positive) : spec_float :=
  let d := Zpos (digits2_pos p) in
  S754_finite s (Pos.shiftl p (Z.to_N (53 - d))) (d - 53).

(** ** imageWriter and a render pass *)

(** [imageWriter] draws the points it receives on [jobs], in the order it
    receives them; [jobs] is the sequence received so far.  [None] is a
    panic of [DrawPoint], which ends the program. *)
Fixpoint imageWriter (mi : MandelbrotImage) (jobs : list Point)
  : option MandelbrotImage :=
  match jobs with
  | [] => Some mi
  | pt :: rest => mi' ← DrawPoint mi pt; imageWriter mi' rest
  end.

(** One pass: the workers [ForceRender] spawned run in the order [order],
    each against the configuration [settings], and send their points to
    [imageWriter]. *)
Definition renderPass (mi : MandelbrotImage) (settings : Settings)
    (order : list Point) : option MandelbrotImage :=
  imageWriter mi ((fun pt => mandelbrotWorker pt settings) <$> order).

(** The pixel [DrawPoint] takes a point for, and the offset of a pixel in a
    buffer [w] pixels wide. *)
Definition pixelOf (pt : Point) : Z * Z :=
  (Go.int_of_float64 (X pt), Go.int_of_float64 (Y pt)).

Definition offsetOf (w : Z) (xy : Z * Z) : Z := xy.2 * w * 4 + xy.1 * 4.

Definition inGrid (w h : Z) (pt : Point) : Prop :=
  0 <= (pixelOf pt).1 < w /\ 0 <= (pixelOf pt).2 < h.

Definition isByte (b : Z) : Prop := 0 <= b < 256.

(** The byte a point puts at index [k], if it covers [k]. *)
Definition byteOf (w : Z) (pt : Point) (k : Z) : option Z :=
  let off := offsetOf w (pixelOf pt) in
  if k =? off then Some (Red pt)
  else if k =? off + 1 then Some (Green pt)
  else if k =? off + 2 then Some (Blue pt)
  else if k =? off + 3 then Some 255
  else None.

(** The byte the last point of [jobs] that covers [k] puts there. *)
Fixpoint lastWrite (w : Z) (jobs : list Point) (k : Z) : option Z :=
  match jobs with
  | [] => None
  | pt :: rest =>
      match lastWrite w rest k with
      | Some b => Some b
      | None => byteOf w pt k
      end
  end.

(** The byte at index [k] of a frame [w] pixels wide computed under
    [settings]: a channel of the colour of pixel [(k/4 mod w, k/4 / w)]. *)
Definition frameByte (settings : Settings) (w : Z) (k : Z) : Z :=
  let p := k / 4 in
  let pt := mandelbrotWorker
              (PointXY (Go.float64_of_int64 (p mod w)) (Go.float64_of_int64 (p / w)))
              settings in
  if k mod 4 =? 0 then Red pt
  else if k mod 4 =? 1 then Green pt
  else if k mod 4 =? 2 then Blue pt
  else 255.

(** ** Events by what they do *)

Definition isQuit (e : Event) : bool :=
  match e with
  | QuitEvent => true
  | KeyboardEvent k => k =? K_q
  | OtherEvent => false
  end.

Definition isMutation (e : Event) : bool :=
  match e with
  | KeyboardEvent k =>
      (k =? K_LEFT) || (k =? K_RIGHT) || (k =? K_DOWN) || (k =? K_UP)
      || (k =? K_EQUALS) || (k =? K_MINUS)
  | _ => false
  end.

(** ** The event switch of the renderer-based program *)
Module RendererMain.

(** Its [main] keeps [settings] and [running]; the key codes are written
    as numbers. *)
Definition onKey (keyCode k : Z) (f : Settings -> Settings)
    (st : Settings * bool) : Settings * bool :=
  if keyCode =? k then (f st.1, st.2) else st.

Definition handleEvent (st : Settings * bool) (event : Event) : Settings * bool :=
  match event with
  | QuitEvent => (st.1, false)
  | KeyboardEvent keyCode =>
      let st := if keyCode =? 113 then (st.1, false) else st in
      let st := onKey keyCode 1073741904 (setCenterX (fun x => x - 0.05)%float) st in
      let st := onKey keyCode 1073741903 (setCenterX (fun x => x + 0.05)%float) st in
      let st := onKey keyCode 1073741905 (setCenterY (fun y => y + 0.05)%float) st in
      let st := onKey keyCode 1073741906 (setCenterY (fun y => y - 0.05)%float) st in
      let st := onKey keyCode 61 zoomIn st in
      let st := onKey keyCode 45 zoomOut st in
      st
  | OtherEvent => st
  end.

Definition pollEvents (st : Settings * bool) (events : list Event) : Settings * bool :=
  foldl handleEvent st events.

End RendererMain.

(** ** The goroutines behind a pass

    [ForceRender] starts the workers and returns: its [wg.Wait()] runs in a
    goroutine of its own, so nothing in [main] waits for a pass.  A worker
    computes its point and sends it on the unbuffered channel [Jobs]
    whenever it is scheduled; [imageWriter] receives the point and draws
    it.  [inFlight] lists the workers started whose point has not been
    drawn yet: a pass is complete once none of its workers is in flight. *)
Record Program := mkProgram {
  loopState : MainState;
  inFlight : list Point
}.

(** The program advances by one iteration of the run loop, on the events
    pending then, or by the point of one worker in flight going through
    [imageWriter]; the scheduler picks. *)
Inductive Step : Type :=
  | LoopTick (events : list Event)
  | WorkerDone (k : nat).

Definition withImage (mi : MandelbrotImage) (st : MainState) : MainState :=
  {| settings := settings st; mandelbrotImg := mi; running := running st;
     updateTexture := updateTexture st; spawned := spawned st |}.

(** The workers an iteration of the run loop started. *)
Definition newWorkers (st st' : MainState) : list Point :=
  drop (length (spawned st)) (spawned st').

(** [LoopTick] needs [running]; it never looks at the workers in flight.
    [WorkerDone k] takes the [k]-th worker in flight, run in one piece
    against the configuration of that moment (the workers read [settings]
    through a pointer); [None] is a step that cannot be taken, or a panic
    of [DrawPoint]. *)
Definition step (p : Program) (s : Step) : option Program :=
  match s with
  | LoopTick events =>
      if running (loopState p) then
        let st' := tick (loopState p) events in
        Some {| loopState := st';
                inFlight := inFlight p ++ newWorkers (loopState p) st' |}
      else None
  | WorkerDone k =>
      pt ← inFlight p !! k;
      mi ← deliver (mandelbrotImg (loopState p)) (settings (loopState p)) pt;
      Some {| loopState := withImage mi (loopState p);
              inFlight := delete k (inFlight p) |}
  end.

Fixpoint run (p : Program) (steps : list Step) : option Program :=
  match steps with
  | [] => Some p
  | s :: rest => p' ← step p s; run p' rest
  end.

(** The program when [main] enters its run loop: the workers of the first
    [ForceRender] are in flight. *)
Definition programStart : outcome Program :=
  outcome_bind mainStart
    (fun st => Done {| loopState := st; inFlight := spawned st |}).

(** [settings] with another [MaxIterations]. *)
Definition withMaxIterations (n : Z) (s : Settings) : Settings :=
  {| Width := Width s; Height := Height s; Min := Min s; Max := Max s;
     MaxIterations := n; Center := Center s |}.

(** What the renderer-based [main] keeps of the run-loop state. *)
Definition rendererView (st : MainState) : Settings * bool :=
  (settings st, running st).

(** * Properties *)

(** ** Binary64 facts: integers of at most 53 bits are exact *)

Section FloatFacts.

Lemma iter_pos_iter {A} (f : A -> A) (p : positive) (x : A) :
  SpecFloat.iter_pos f p x = Pos.iter f x p.
Proof.
  revert x; induction p as [p IH|p IH|]; intros x; simpl.
  - rewrite !IH, <- !Pos.iter_swap. reflexivity.
  - rewrite !IH. reflexivity.
  - reflexivity.
Qed.

Lemma digits2_size (p : positive) : digits2_pos p = Pos.size p.
Proof. induction p; simpl; congruence. Qed.

Lemma digits2_bounds (p : positive) :
  2 ^ (Zpos (digits2_pos p) - 1) <= Zpos p < 2 ^ Zpos (digits2_pos p).
Proof.
  rewrite digits2_size. split.
  - pose proof (Pos.size_le p) as H.
    apply Pos2Z.pos_le_pos in H. rewrite Pos2Z.inj_pow in H.
    change (Zpos p~0) with (2 * Zpos p) in H.
    replace (Zpos (Pos.size p)) with (Z.succ (Zpos (Pos.size p) - 1)) in H by lia.
    rewrite Z.pow_succ_r in H by lia. lia.
  - pose proof (Pos.size_gt p) as H.
    apply Pos2Z.pos_lt_pos in H. rewrite Pos2Z.inj_pow in H. exact H.
Qed.

Lemma digits2_unique (p : positive) (d : Z) :
  2 ^ (d - 1) <= Zpos p < 2 ^ d -> Zpos (digits2_pos p) = d.
Proof.
  intros [Hl Hu]. destruct (digits2_bounds p) as [Hl' Hu'].
  assert (0 < d).
  { destruct (Z_lt_le_dec 0 d); [assumption|].
    assert (2 ^ d <= 2 ^ 0) by (apply Z.pow_le_mono_r; lia). simpl in *. lia. }
  assert (d - 1 < Zpos (digits2_pos p)).
  { apply (Z.pow_lt_mono_r_iff 2); lia. }
  assert (Zpos (digits2_pos p) - 1 < d).
  { apply (Z.pow_lt_mono_r_iff 2); lia. }
  lia.
Qed.

Lemma iter_xO_Z (p n : positive) : Zpos (Pos.iter xO p n) = Zpos p * 2 ^ Zpos n.
Proof.
  induction n as [|n IH] using Pos.peano_ind.
  - simpl. lia.
  - rewrite Pos.iter_succ, Pos2Z.inj_xO, IH, Pos2Z.inj_succ, Z.pow_succ_r by lia. lia.
Qed.

Lemma digits2_iter_xO (p n : positive) :
  digits2_pos (Pos.iter xO p n) = (digits2_pos p + n)%positive.
Proof.
  induction n as [|n IH] using Pos.peano_ind.
  - simpl. lia.
  - rewrite Pos.iter_succ. simpl. rewrite IH. lia.
Qed.

(** Shifting out [n] zero bits is exact. *)
Lemma shr_iter_exact (q n : positive) :
  SpecFloat.iter_pos shr_1 n (Build_shr_record (Zpos (Pos.iter xO q n)) false false)
  = Build_shr_record (Zpos q) false false.
Proof.
  rewrite iter_pos_iter. revert q.
  induction n as [|n IH] using Pos.peano_ind; intros q.
  - reflexivity.
  - rewrite !Pos.iter_succ, <- Pos.iter_swap. simpl. apply IH.
Qed.


Lemma fexp64 (e : Z) : fexp 53 1024 e = Z.max (e - 53) (-1074).
Proof. reflexivity. Qed.

Lemma shr_fexp_keep (p : positive) (e : Z) :
  Zpos (digits2_pos p) <= 53 -> -1074 <= e ->
  Zpos (digits2_pos p) + e - 53 <= e ->
  shr_fexp 53 1024 (Zpos p) e loc_Exact = (Build_shr_record (Zpos p) false false, e).
Proof.
  intros Hd He Hs. unfold shr_fexp, Zdigits2. rewrite fexp64.
  destruct (Z.max _ _ - e) as [|n|n] eqn:En; try reflexivity. lia.
Qed.

Lemma shr_fexp_shift (p : positive) (e : Z) (n : positive) :
  -1074 <= e -> Zpos (digits2_pos p) - 53 = Zpos n ->
  shr_fexp 53 1024 (Zpos p) e loc_Exact
  = (SpecFloat.iter_pos shr_1 n (Build_shr_record (Zpos p) false false), e + Zpos n).
Proof.
  intros He Hd. unfold shr_fexp, Zdigits2. rewrite fexp64.
  replace (Z.max _ _ - e) with (Zpos n) by lia. reflexivity.
Qed.

(** A 53-bit mantissa with an exponent in range is already rounded. *)
Lemma binary_round_aux_canonical (s : bool) (m : positive) (e : Z) :
  Zpos (digits2_pos m) = 53 -> -1074 <= e <= 971 ->
  binary_round_aux 53 1024 s (Zpos m) e loc_Exact = S754_finite s m e.
Proof.
  intros Hd He.
  unfold binary_round_aux.
  rewrite shr_fexp_keep by lia.
  cbn [shr_m loc_of_shr_record round_nearest_even].
  rewrite shr_fexp_keep by lia.
  cbn [shr_m].
  destruct (Z.leb_spec e (1024 - 53)); [reflexivity | lia].
Qed.

Lemma shr_1_m (r : shr_record) :
  0 <= shr_m r -> shr_m (shr_1 r) = Z.div2 (shr_m r).
Proof.
  destruct r as [m r s]. simpl. intros Hm.
  destruct m as [|[p|p|]|p]; try reflexivity; lia.
Qed.

Lemma shr_iter_m (n : positive) (r : shr_record) :
  0 <= shr_m r -> shr_m (SpecFloat.iter_pos shr_1 n r) = shr_m r / 2 ^ Zpos n.
Proof.
  intros Hm. rewrite iter_pos_iter.
  induction n as [|n IH] using Pos.peano_ind.
  - simpl. rewrite shr_1_m, Z.div2_div by assumption. reflexivity.
  - rewrite Pos.iter_succ, shr_1_m, IH, Z.div2_div.
    + rewrite Pos2Z.inj_succ, Z.pow_succ_r, Z.div_div by lia. f_equal. lia.
    + rewrite IH. apply Z.div_pos; lia.
Qed.

Lemma round_nearest_even_bounds (m : Z) (l : location) :
  m <= round_nearest_even m l <= m + 1.
Proof.
  destruct l as [|[| |]]; simpl; try lia.
  destruct (Z.even m); lia.
Qed.

(** Rounding a positive integer with at least 53 bits gives a positive
    finite float. *)
Lemma binary_round_aux_finite (s : bool) (p : positive) (e : Z) :
  53 <= Zpos (digits2_pos p) -> 0 <= e -> Zpos (digits2_pos p) + e <= 1000 ->
  exists m e', binary_round_aux 53 1024 s (Zpos p) e loc_Exact = S754_finite s m e'.
Proof.
  intros Hd He Hb.
  destruct (Z.eq_dec (Zpos (digits2_pos p)) 53) as [E|NE].
  { exists p, e. apply binary_round_aux_canonical; lia. }
  destruct (digits2_bounds p) as [Hlo Hhi].
  destruct (Zpos (digits2_pos p) - 53) as [|n|n] eqn:En; try lia.
  unfold binary_round_aux.
  rewrite (shr_fexp_shift p e n) by lia.
  set (r1 := SpecFloat.iter_pos shr_1 n _).
  assert (Hm1 : shr_m r1 = Zpos p / 2 ^ Zpos n) by (apply shr_iter_m; simpl; lia).
  assert (Hp : 2 ^ (Zpos (digits2_pos p) - 1) = 2 ^ 52 * 2 ^ Zpos n).
  { rewrite <- Z.pow_add_r by lia. f_equal. lia. }
  assert (Hq : 2 ^ Zpos (digits2_pos p) = 2 ^ 53 * 2 ^ Zpos n).
  { rewrite <- Z.pow_add_r by lia. f_equal. lia. }
  assert (Hpow : 0 < 2 ^ Zpos n) by (apply Z.pow_pos_nonneg; lia).
  assert (Hr1 : 2 ^ 52 <= shr_m r1 < 2 ^ 53).
  { rewrite Hm1. split.
    - apply Z.div_le_lower_bound; lia.
    - apply Z.div_lt_upper_bound; lia. }
  pose proof (round_nearest_even_bounds (shr_m r1) (loc_of_shr_record r1)) as Hrne.
  destruct (round_nearest_even _ _) as [|q|q] eqn:Em2; try lia.
  destruct (Z.eq_dec (Zpos q) (2 ^ 53)) as [Etop|Ntop].
  - assert (Hdq : Zpos (digits2_pos q) - 53 = 1).
    { rewrite (digits2_unique q 54); [reflexivity|]. rewrite Etop. simpl. lia. }
    rewrite (shr_fexp_shift q _ 1) by lia.
    assert (Eq : q = 9007199254740992%positive) by lia. subst q.
    cbn [SpecFloat.iter_pos shr_1 shr_m].
    destruct (Z.leb_spec (e + Zpos n + Zpos 1) (1024 - 53)); [eauto | lia].
  - assert (Hdq : Zpos (digits2_pos q) = 53).
    { apply digits2_unique. simpl in *. lia. }
    rewrite shr_fexp_keep by lia. cbn [shr_m].
    destruct (Z.leb_spec (e + Zpos n) (1024 - 53)); [eauto | lia].
Qed.


Lemma shiftl_Z (p : positive) (k : Z) :
  0 <= k -> Zpos (Pos.shiftl p (Z.to_N k)) = Zpos p * 2 ^ k.
Proof.
  intros Hk. destruct k as [|k|k]; try lia.
  - change (Zpos p = Zpos p * 1). lia.
  - change (Zpos (Pos.iter xO p k) = Zpos p * 2 ^ Zpos k). apply iter_xO_Z.
Qed.

Lemma digits2_shiftl (p : positive) (k : Z) :
  0 <= k -> Zpos (digits2_pos (Pos.shiftl p (Z.to_N k))) = Zpos (digits2_pos p) + k.
Proof.
  intros Hk. destruct k as [|k|k]; try lia.
  - change (Pos.shiftl p (Z.to_N 0)) with p. lia.
  - change (Pos.shiftl p (Z.to_N (Zpos k))) with (Pos.iter xO p k).
    rewrite digits2_iter_xO. lia.
Qed.

Lemma binary_round_ofpos (s : bool) (p : positive) :
  Zpos (digits2_pos p) <= 53 -> binary_round 53 1024 s p 0 = SFofpos s p.
Proof.
  intros Hd. unfold binary_round, SFofpos, shl_align.
  rewrite Z.add_0_r, fexp64.
  replace (Z.max (Zpos (digits2_pos p) - 53) (-1074) - 0)
    with (Zpos (digits2_pos p) - 53) by lia.
  pose proof (Pos2Z.is_pos (digits2_pos p)) as Hpos.
  destruct (Zpos (digits2_pos p) - 53) as [|k|k] eqn:Ek; try lia.
  - replace (53 - Zpos (digits2_pos p)) with 0 by lia.
    change (Pos.shiftl p (Z.to_N 0)) with p.
    apply binary_round_aux_canonical; lia.
  - replace (53 - Zpos (digits2_pos p)) with (Zpos k) by lia.
    change (Pos.shiftl p (Z.to_N (Zpos k))) with (Pos.iter xO p k).
    replace (Z.max _ _) with (Zneg k) by lia.
    apply binary_round_aux_canonical; [rewrite digits2_iter_xO|]; lia.
Qed.

Lemma truncSF_ofpos (s : bool) (p : positive) :
  Zpos (digits2_pos p) <= 53 ->
  match SFofpos s p with
  | S754_finite s' m e =>
      s' = s /\ (if 0 <=? e then Z.shiftl (Zpos m) e else Z.shiftr (Zpos m) (- e)) = Zpos p
  | _ => False
  end.
Proof.
  intros Hd. unfold SFofpos. split; [reflexivity|].
  pose proof (Pos2Z.is_pos (digits2_pos p)) as Hpos.
  rewrite shiftl_Z by lia.
  destruct (Z.leb_spec 0 (Zpos (digits2_pos p) - 53)).
  - replace (Zpos (digits2_pos p) - 53) with 0 by lia.
    replace (53 - Zpos (digits2_pos p)) with 0 by lia.
    change (2 ^ 0) with 1. rewrite Z.shiftl_0_r. lia.
  - rewrite Z.shiftr_div_pow2 by lia.
    replace (- (Zpos (digits2_pos p) - 53)) with (53 - Zpos (digits2_pos p)) by lia.
    apply Z.div_mul. apply Z.pow_nonzero; lia.
Qed.

Lemma digits2_mul_lower (a b : positive) :
  Zpos (digits2_pos a) + Zpos (digits2_pos b) - 1 <= Zpos (digits2_pos (a * b)).
Proof.
  destruct (digits2_bounds a) as [Ha _], (digits2_bounds b) as [Hb _].
  destruct (digits2_bounds (a * b)) as [_ Hab].
  pose proof (Pos2Z.is_pos (digits2_pos a)). pose proof (Pos2Z.is_pos (digits2_pos b)).
  assert (H2 : 2 ^ (Zpos (digits2_pos a) + Zpos (digits2_pos b) - 2)
               < 2 ^ Zpos (digits2_pos (a * b))).
  { replace (Zpos (digits2_pos a) + Zpos (digits2_pos b) - 2)
      with ((Zpos (digits2_pos a) - 1) + (Zpos (digits2_pos b) - 1)) by lia.
    rewrite Z.pow_add_r by lia. rewrite Pos2Z.inj_mul in Hab.
    eapply Z.le_lt_trans; [|exact Hab].
    apply Z.mul_le_mono_nonneg; try assumption; apply Z.pow_nonneg; lia. }
  apply Z.pow_lt_mono_r_iff in H2; lia.
Qed.

Lemma digits2_mono (a b : positive) :
  Zpos a <= Zpos b -> Zpos (digits2_pos a) <= Zpos (digits2_pos b).
Proof.
  intros Hab.
  destruct (digits2_bounds a) as [Ha _], (digits2_bounds b) as [_ Hb].
  assert (H2 : 2 ^ (Zpos (digits2_pos a) - 1) < 2 ^ Zpos (digits2_pos b)) by lia.
  apply Z.pow_lt_mono_r_iff in H2; lia.
Qed.

(** The product of two integers is exact when it has at most 53 bits. *)
Lemma SFmul_ofpos (sa sb : bool) (a b : positive) :
  Zpos (digits2_pos (a * b)) <= 53 ->
  SFmul 53 1024 (SFofpos sa a) (SFofpos sb b) = SFofpos (xorb sa sb) (a * b).
Proof.
  intros Hab.
  pose proof (digits2_mul_lower a b) as Hlow.
  assert (Hda : Zpos (digits2_pos a) <= Zpos (digits2_pos (a * b))) by (apply digits2_mono; nia).
  assert (Hdb : Zpos (digits2_pos b) <= Zpos (digits2_pos (a * b))) by (apply digits2_mono; nia).
  pose proof (Pos2Z.is_pos (digits2_pos a)). pose proof (Pos2Z.is_pos (digits2_pos b)).
  unfold SFofpos at 1 2. cbn [SFmul].
  set (da := Zpos (digits2_pos a)) in *. set (db := Zpos (digits2_pos b)) in *.
  set (dab := Zpos (digits2_pos (a * b))) in *.
  set (q := Pos.shiftl (a * b) (Z.to_N (53 - dab))).
  assert (Hdq : Zpos (digits2_pos q) = 53).
  { unfold q. rewrite digits2_shiftl by lia. fold dab. lia. }
  destruct (dab + 53 - da - db) as [|n|n] eqn:En; try lia.
  assert (HP : (Pos.shiftl a (Z.to_N (53 - da)) * Pos.shiftl b (Z.to_N (53 - db)))%positive
               = Pos.iter xO q n).
  { apply Pos2Z.inj. rewrite Pos2Z.inj_mul, iter_xO_Z. unfold q.
    rewrite !shiftl_Z by lia. rewrite Pos2Z.inj_mul.
    rewrite <- En.
    replace (53 - da) with ((53 - dab) + (dab - da)) at 1 by lia.
    replace (dab + 53 - da - db) with ((dab - da) + (53 - db)) by lia.
    rewrite !Z.pow_add_r by lia. ring. }
  rewrite HP.
  unfold binary_round_aux.
  rewrite (shr_fexp_shift _ _ n) by (rewrite ?digits2_iter_xO; lia).
  rewrite shr_iter_exact.
  cbn [shr_m loc_of_shr_record round_nearest_even].
  rewrite shr_fexp_keep by lia. cbn [shr_m].
  replace (da - 53 + (db - 53) + Zpos n) with (dab - 53) by lia.
  destruct (Z.leb_spec (dab - 53) (1024 - 53)); [|lia].
  unfold SFofpos. fold dab. reflexivity.
Qed.


Lemma digits2_le_53 (p : positive) : Zpos p < 2 ^ 53 -> Zpos (digits2_pos p) <= 53.
Proof.
  intros Hp. destruct (digits2_bounds p) as [Hlo _].
  pose proof (Pos2Z.is_pos (digits2_pos p)).
  assert (H2 : 2 ^ (Zpos (digits2_pos p) - 1) < 2 ^ 53) by lia.
  apply Z.pow_lt_mono_r_iff in H2; lia.
Qed.

Lemma digits2_le_63 (p : positive) : Zpos p < 2 ^ 63 -> Zpos (digits2_pos p) <= 63.
Proof.
  intros Hp. destruct (digits2_bounds p) as [Hlo _].
  pose proof (Pos2Z.is_pos (digits2_pos p)).
  assert (H2 : 2 ^ (Zpos (digits2_pos p) - 1) < 2 ^ 63) by lia.
  apply Z.pow_lt_mono_r_iff in H2; lia.
Qed.

Lemma Prim2SF_of_uint63 (p : positive) :
  Zpos p < 2 ^ 63 ->
  Prim2SF (of_uint63 (Uint63.of_Z (Zpos p))) = binary_round 53 1024 false p 0.
Proof.
  intros Hp. rewrite FloatAxioms.of_uint63_spec, Uint63.of_Z_spec.
  change wB with (2 ^ 63). rewrite Z.mod_small by lia. reflexivity.
Qed.

Lemma float64_of_int64_pos (z : Z) :
  0 < z < 2 ^ 63 ->
  Go.float64_of_int64 z = of_uint63 (Uint63.of_Z z).
Proof.
  intros Hz. unfold Go.float64_of_int64, Go.int64_min.
  destruct (Z.eqb_spec z (- 2 ^ 63)); [lia|].
  destruct (Z.ltb_spec z 0); [lia|]. reflexivity.
Qed.

(** [float64(z)] is exact for [0 < z < 2^53]. *)
Lemma float64_of_int64_SF (z : Z) :
  0 < z < 2 ^ 53 ->
  Prim2SF (Go.float64_of_int64 z) = SFofpos false (Z.to_pos z).
Proof.
  intros Hz. rewrite float64_of_int64_pos by lia.
  destruct z as [|p|p]; try lia.
  rewrite Prim2SF_of_uint63 by lia.
  apply binary_round_ofpos, digits2_le_53. lia.
Qed.

(** [float64(z)] is a positive finite number for every positive [int64]. *)
Lemma float64_of_int64_finite (z : Z) :
  0 < z <= Go.int64_max ->
  exists m e, Prim2SF (Go.float64_of_int64 z) = S754_finite false m e.
Proof.
  unfold Go.int64_max. intros Hz. rewrite float64_of_int64_pos by lia.
  destruct z as [|p|p]; try lia.
  rewrite Prim2SF_of_uint63 by lia.
  destruct (Z_lt_le_dec (Zpos (digits2_pos p)) 53) as [Hd|Hd].
  - rewrite binary_round_ofpos by lia. unfold SFofpos. eauto.
  - pose proof (digits2_le_63 p ltac:(lia)) as H63.
    unfold binary_round, shl_align. rewrite Z.add_0_r, fexp64.
    destruct (Z.max (Zpos (digits2_pos p) - 53) (-1074) - 0) as [|k|k] eqn:Ek; try lia;
      apply binary_round_aux_finite; lia.
Qed.

Lemma finite_nonzero (x : float) (s : bool) (m : positive) (e : Z) :
  Prim2SF x = S754_finite s m e ->
  (x =? 0)%float = false /\ (x - 0 =? 0)%float = false.
Proof.
  intros Hx.
  assert (E : (x =? 0)%float = false).
  { rewrite FloatAxioms.eqb_spec, Hx. destruct s; reflexivity. }
  split; [exact E|].
  replace (x - 0)%float with x; [exact E|].
  apply Prim2SF_inj. rewrite FloatAxioms.sub_spec, Hx. reflexivity.
Qed.

(** A float that is at least 1 is not zero, and neither is the divisor
    [w - 0] it gives. *)
Lemma ge_one_nonzero (w : float) :
  (1 <=? w)%float = true ->
  (w =? 0)%float = false /\ (w - 0 =? 0)%float = false.
Proof.
  rewrite FloatAxioms.leb_spec. intros H1.
  destruct (Prim2SF w) as [s|s| |s m e] eqn:Ew.
  - discriminate H1.
  - assert (E : (w =? 0)%float = false).
    { rewrite FloatAxioms.eqb_spec, Ew. destruct s; reflexivity. }
    split; [exact E|].
    replace (w - 0)%float with w; [exact E|].
    apply Prim2SF_inj. rewrite FloatAxioms.sub_spec, Ew. reflexivity.
  - discriminate H1.
  - eapply finite_nonzero; eassumption.
Qed.

Lemma truncZ_float64_of_int64 (z : Z) :
  0 <= z < 2 ^ 53 -> Go.truncZ (Go.float64_of_int64 z) = Some z.
Proof.
  intros Hz. destruct (Z.eq_dec z 0) as [->|Hnz]; [reflexivity|].
  unfold Go.truncZ. rewrite float64_of_int64_SF by lia.
  assert (Hd : Zpos (digits2_pos (Z.to_pos z)) <= 53) by (apply digits2_le_53; lia).
  pose proof (truncSF_ofpos false (Z.to_pos z) Hd) as H.
  destruct (SFofpos false (Z.to_pos z)) as [| | |s m e]; try contradiction.
  destruct H as [-> H].
  unfold Go.truncSF. rewrite H. simpl. f_equal. lia.
Qed.

Lemma int_of_float64_of_int64 (z : Z) :
  0 <= z < 2 ^ 53 -> Go.int_of_float64 (Go.float64_of_int64 z) = z.
Proof.
  intros Hz. unfold Go.int_of_float64. rewrite truncZ_float64_of_int64 by assumption.
  unfold Go.in_int64, Go.int64_min, Go.int64_max.
  destruct (Z.leb_spec (- 2 ^ 63) z); [|lia].
  destruct (Z.leb_spec z (2 ^ 63 - 1)); [reflexivity|lia].
Qed.

Lemma float64_of_int64_below_2p63 (z : Z) :
  0 <= z < 2 ^ 53 -> (Go.float64_of_int64 z <? 0x1p63)%float = true.
Proof.
  intros Hz. destruct (Z.eq_dec z 0) as [->|Hnz]; [reflexivity|].
  rewrite FloatAxioms.ltb_spec, float64_of_int64_SF by lia.
  pose proof (digits2_le_53 (Z.to_pos z) ltac:(lia)) as Hd.
  change (Prim2SF 0x1p63) with (S754_finite false 4503599627370496 11).
  unfold SFofpos, SFltb, SFcompare.
  destruct (Z.compare_spec (Zpos (digits2_pos (Z.to_pos z)) - 53) 11); [lia|reflexivity|lia].
Qed.

Lemma uint64_of_float64_of_int64 (z : Z) :
  0 <= z < 2 ^ 53 -> Go.uint64_of_float64 (Go.float64_of_int64 z) = z.
Proof.
  intros Hz. unfold Go.uint64_of_float64.
  rewrite float64_of_int64_below_2p63, int_of_float64_of_int64 by assumption.
  unfold Go.wrapU64. apply Z.mod_small. lia.
Qed.

(** The float product of two positive integers is their integer product
    when that has at most 53 bits. *)
Lemma float64_mul_exact (a b : Z) :
  0 < a -> 0 < b -> a * b < 2 ^ 53 ->
  (Go.float64_of_int64 a * Go.float64_of_int64 b)%float = Go.float64_of_int64 (a * b).
Proof.
  intros Ha Hb Hab.
  assert (a < 2 ^ 53) by nia. assert (b < 2 ^ 53) by nia.
  apply Prim2SF_inj. rewrite FloatAxioms.mul_spec.
  rewrite !float64_of_int64_SF by lia.
  change SF64mul with (SFmul 53 1024).
  change false with (xorb false false) at 3.
  rewrite Z2Pos.inj_mul by assumption.
  apply SFmul_ofpos, digits2_le_53.
  rewrite Pos2Z.inj_mul, !Z2Pos.id by assumption. exact Hab.
Qed.

End FloatFacts.

(** ** The escape loop against the specification's iteration *)

Section EscapeLoop.

Variables x0 y0 : float.

Lemma escaped_succ (k : nat) :
  Spec.escaped x0 y0 (S k)
  = let '(x, y) := Spec.orbit x0 y0 k in
    (2 <? (x * x - y * y + x0) + (2 * x * y + y0))%float.
Proof.
  unfold Spec.escaped. simpl. destruct (Spec.orbit x0 y0 k) as [x y].
  reflexivity.
Qed.

(** Entered at the point after [k] updates, the loop counts the updates
    that do not escape, up to the first one that does or to [n]. *)
Lemma escapeLoop_counts (n : nat) :
  forall (k : nat) (iters : Z),
    0 <= iters -> iters + Z.of_nat n <= Go.int64_max ->
    exists j : nat,
      (j <= n)%nat /\
      snd (escapeLoop n x0 y0 (Spec.orbit x0 y0 k).1 (Spec.orbit x0 y0 k).2 iters)
      = iters + Z.of_nat j /\
      (forall i, (i < j)%nat -> Spec.escaped x0 y0 (k + i + 1) = false) /\
      ((j < n)%nat -> Spec.escaped x0 y0 (k + j + 1) = true).
Proof.
  induction n as [|n IH]; intros k iters Hi Hmax.
  - exists O. simpl. split; [lia|]. split; [lia|]. split; intros; lia.
  - pose proof (escaped_succ k) as Hk.
    cbn [escapeLoop].
    destruct (Spec.orbit x0 y0 k) as [x y] eqn:Ek. cbn [fst snd].
    destruct (2 <? x * x - y * y + x0 + (2 * x * y + y0))%float eqn:Hesc.
    + exists O. cbn [snd].
      split; [lia|]. split; [lia|]. split; [intros; lia|].
      intros _. replace (k + 0 + 1)%nat with (S k) by lia. exact Hk.
    + assert (Hadd : Go.int64_add iters 1 = iters + 1).
      { unfold Go.int64_add, Go.wrap64, Go.int64_max in *.
        rewrite Z.mod_small by lia. lia. }
      rewrite Hadd.
      destruct (IH (S k) (iters + 1)) as (j & Hj & Hr & Hbefore & Hat);
        [lia | lia |].
      simpl Spec.orbit in Hr. rewrite Ek in Hr. cbn [Spec.next fst snd] in Hr.
      exists (S j). split; [lia|]. split; [rewrite Hr; lia|]. split.
      * intros i Hlt. destruct i as [|i].
        -- replace (k + 0 + 1)%nat with (S k) by lia. exact Hk.
        -- replace (k + S i + 1)%nat with (S k + i + 1)%nat by lia.
           apply Hbefore. lia.
      * intros Hlt. replace (k + S j + 1)%nat with (S k + j + 1)%nat by lia.
        apply Hat. lia.
Qed.

End EscapeLoop.

Lemma workerStart_spec (pt : Point) (settings : Settings) :
  workerStart pt settings = Spec.start (X pt) (Y pt) settings.
Proof. reflexivity. Qed.

(** C1. For every pixel and every configuration whose [MaxIterations] is a
    non-negative [int64], [mandelbrotWorker] starts from the pixel mapped
    linearly into [[Min, Max]] minus the centre, iterates
    [xNext = x*x - y*y + x0], [yNext = 2*x*y + y0], and leaves the loop at
    the first update after which [x + y > 2]: [iters] is the number of
    updates completed without escaping before that one, and it is
    [MaxIterations] when no update escapes.  The colour is derived from that
    [iters]. *)
Theorem worker_follows_spec (pt : Point) (settings : Settings) :
  0 <= MaxIterations settings <= Go.int64_max ->
  let '(x0, y0) := Spec.start (X pt) (Y pt) settings in
  let iters := workerIters pt settings in
  workerStart pt settings = (x0, y0) /\
  0 <= iters <= MaxIterations settings /\
  (forall k, (1 <= k <= Z.to_nat iters)%nat -> Spec.escaped x0 y0 k = false) /\
  (iters < MaxIterations settings ->
   Spec.escaped x0 y0 (S (Z.to_nat iters)) = true) /\
  ((forall k, (1 <= k <= Z.to_nat (MaxIterations settings))%nat ->
      Spec.escaped x0 y0 k = false) ->
   iters = MaxIterations settings) /\
  mandelbrotWorker pt settings
  = (let col := workerLevel iters (MaxIterations settings) in
     {| X := X pt; Y := Y pt;
        Red := Go.uint8_of_float64 (redOf col);
        Green := Go.uint8_of_float64 (greenOf col);
        Blue := Go.uint8_of_float64 (blueOf col) |}).
Proof.
  intros HM.
  pose proof (workerStart_spec pt settings) as Hs.
  unfold workerIters. rewrite Hs.
  destruct (Spec.start (X pt) (Y pt) settings) as [x0 y0] eqn:E0.
  destruct (escapeLoop_counts x0 y0 (Z.to_nat (MaxIterations settings)) O 0)
    as (j & Hj & Hr & Hbefore & Hat); [lia | lia |].
  cbn [Spec.orbit fst snd] in Hr. rewrite Hr.
  replace (Z.to_nat (0 + Z.of_nat j)) with j by lia.
  split; [reflexivity|]. split; [lia|]. split; [|split; [|split]].
  - intros k Hk. replace k with (0 + (k - 1) + 1)%nat by lia. apply Hbefore. lia.
  - intros Hlt. replace (S j) with (0 + j + 1)%nat by lia. apply Hat. lia.
  - intros Hnone.
    destruct (Nat.eq_dec j (Z.to_nat (MaxIterations settings))) as [->|Hne]; [lia|].
    assert (Hlt : (j < Z.to_nat (MaxIterations settings))%nat) by lia.
    specialize (Hat Hlt). rewrite Hnone in Hat by lia. discriminate.
  - unfold mandelbrotWorker, workerIters. rewrite Hs, Hr. reflexivity.
Qed.

Lemma worker_follows_spec_witness :
  0 <= MaxIterations settings0 <= Go.int64_max /\
  workerIters (PointXY 340 460) settings0 = 102 /\
  Spec.escaped (Spec.start 340 460 settings0).1 (Spec.start 340 460 settings0).2 103
  = true.
Proof.
  assert (HM : 0 <= MaxIterations settings0 <= Go.int64_max)
    by (unfold Go.int64_max; simpl; lia).
  split; [exact HM|].
  pose proof (worker_follows_spec (PointXY 340 460) settings0 HM) as H.
  cbn [X Y PointXY] in H.
  destruct (Spec.start 340 460 settings0) as [x0 y0] eqn:E0.
  destruct H as (_ & _ & _ & Hesc & _).
  assert (Hit : workerIters (PointXY 340 460) settings0 = 102) by (vm_compute; reflexivity).
  split; [exact Hit|].
  rewrite Hit in Hesc. apply Hesc. simpl. lia.
Defined.

(** ** The colour floor and the channel remaps *)

Lemma channels_of_zero :
  Go.uint8_of_float64 (redOf 0) = 0 /\
  Go.uint8_of_float64 (greenOf 0) = 0 /\
  Go.uint8_of_float64 (blueOf 0) = 0.
Proof. vm_compute. auto. Qed.

(** C4. For every pixel and configuration, when the iteration count equals
    [MaxIterations], or the normalised level
    [mapToRange(iters, 0, MaxIterations, 0, 255)] is below 20, the colour
    [mandelbrotWorker] returns is (0, 0, 0). *)
Theorem color_floor (pt : Point) (settings : Settings) :
  let iters := workerIters pt settings in
  let level := mapToRange (Go.float64_of_int64 iters) 0
                 (Go.float64_of_int64 (MaxIterations settings)) 0 255 in
  iters = MaxIterations settings \/ (level <? 20)%float = true ->
  Red (mandelbrotWorker pt settings) = 0 /\
  Green (mandelbrotWorker pt settings) = 0 /\
  Blue (mandelbrotWorker pt settings) = 0.
Proof.
  intros iters level Hfloor.
  assert (Hlevel : workerLevel iters (MaxIterations settings) = 0%float).
  { unfold workerLevel. fold level.
    destruct Hfloor as [-> | ->].
    - rewrite Z.eqb_refl. reflexivity.
    - rewrite orb_true_r. reflexivity. }
  unfold mandelbrotWorker. fold iters. rewrite Hlevel.
  exact channels_of_zero.
Qed.

Lemma color_floor_witness :
  workerIters (PointXY 360 440) settings0 = MaxIterations settings0 /\
  Red (mandelbrotWorker (PointXY 360 440) settings0) = 0 /\
  Green (mandelbrotWorker (PointXY 360 440) settings0) = 0 /\
  Blue (mandelbrotWorker (PointXY 360 440) settings0) = 0.
Proof.
  assert (H : workerIters (PointXY 360 440) settings0 = MaxIterations settings0)
    by (vm_compute; reflexivity).
  split; [exact H|].
  apply (color_floor (PointXY 360 440) settings0). left. exact H.
Defined.

(** The red and blue remaps are the specification's; the green one has 127
    where the specification has 127.5. *)
Lemma remaps_against_spec (col : float) :
  redOf col = Spec.red col /\
  blueOf col = Spec.blue col /\
  greenOf col = Spec.map (col / 2) 0 127 0 255 /\
  Spec.green col = Spec.map (col / 2) 0 127.5 0 255.
Proof. repeat split; reflexivity. Qed.

(** C8.  The channel remaps at level 255 and at level 0.  Red and blue are
    255 at level 255 and all three channels are 0 at level 0; the green
    remap divides by the integer constant [255/2 = 127], so at level 255 it
    yields 127.5 * 255 / 127, a value above 256 that no [uint8] holds (gc
    narrows it to 0), and not the 255 that the specification states and
    that its own remap, dividing by 127.5, gives. *)
Theorem channel_remap_endpoints :
  Go.uint8_of_float64 (redOf 255) = 255 /\
  Go.uint8_of_float64 (blueOf 255) = 255 /\
  greenOf 255 = 256.00393700787401%float /\
  Go.truncZ (greenOf 255) = Some 256 /\
  Go.uint8_representable (greenOf 255) = false /\
  Go.uint8_of_float64 (greenOf 255) = 0 /\
  Go.uint8_of_float64 (Spec.green 255) = 255 /\
  Go.uint8_of_float64 (redOf 0) = 0 /\
  Go.uint8_of_float64 (greenOf 0) = 0 /\
  Go.uint8_of_float64 (blueOf 0) = 0.
Proof. vm_compute. repeat split; reflexivity. Qed.

(** The same green remap on the first frame: the pixel (257, 469) of the
    initial configuration leaves the loop after 18 updates, at level 22.95;
    the program draws it with green 23, the specification's remap gives
    22. *)
Lemma green_remap_on_first_frame :
  workerIters (PointXY 257 469) settings0 = 18 /\
  workerLevel 18 (MaxIterations settings0) = 22.949999999999999%float /\
  Green (mandelbrotWorker (PointXY 257 469) settings0) = 23 /\
  Go.uint8_of_float64 (Spec.green (workerLevel 18 (MaxIterations settings0))) = 22.
Proof. vm_compute. repeat split; reflexivity. Qed.

(** One level below the top, which a pixel reaches with 254 completed
    updates out of 255: green is 255 where the specification's remap
    gives 254. *)
Lemma green_remap_at_254 :
  workerLevel 254 255 = 254%float /\
  Go.uint8_of_float64 (greenOf 254) = 255 /\
  Go.uint8_of_float64 (Spec.green 254) = 254.
Proof. vm_compute. repeat split; reflexivity. Qed.

(** ** No division by zero in mapToRange *)

(** C7. With [Max > Min], [MaxIterations >= 1] and [Width, Height >= 1], no
    call of [mapToRange] made by [mandelbrotWorker] has [in_max == in_min],
    and the divisor [in_max - in_min] of none is zero. *)
Theorem mapToRange_divisor_nonzero (settings : Settings) :
  (Min settings <? Max settings)%float = true ->
  1 <= MaxIterations settings <= Go.int64_max ->
  (1 <=? Width settings)%float = true ->
  (1 <=? Height settings)%float = true ->
  Forall (fun call : float * float =>
            (call.2 =? call.1)%float = false /\
            (call.2 - call.1 =? 0)%float = false)
         (workerMapCalls settings).
Proof.
  intros _ HM HW HH.
  destruct (float64_of_int64_finite (MaxIterations settings)) as (m & e & HF); [lia|].
  unfold workerMapCalls.
  repeat apply Forall_cons_2; cbn [fst snd].
  - apply ge_one_nonzero, HW.
  - apply ge_one_nonzero, HH.
  - eapply finite_nonzero, HF.
  - vm_compute. auto.
  - vm_compute. auto.
  - vm_compute. auto.
  - apply Forall_nil_2.
Qed.

Lemma mapToRange_divisor_nonzero_witness :
  Forall (fun call : float * float =>
            (call.2 =? call.1)%float = false /\
            (call.2 - call.1 =? 0)%float = false)
         (workerMapCalls settings0).
Proof.
  apply (mapToRange_divisor_nonzero settings0).
  - vm_compute. reflexivity.
  - unfold Go.int64_max. simpl. lia.
  - vm_compute. reflexivity.
  - vm_compute. reflexivity.
Defined.

(** ** Integer arithmetic that stays in range *)

Lemma int64_add_small (a b : Z) :
  Go.int64_min <= a + b <= Go.int64_max -> Go.int64_add a b = a + b.
Proof.
  unfold Go.int64_add, Go.wrap64, Go.int64_min, Go.int64_max. intros H.
  rewrite Z.mod_small by lia. lia.
Qed.

Lemma int64_sub_small (a b : Z) :
  Go.int64_min <= a - b <= Go.int64_max -> Go.int64_sub a b = a - b.
Proof.
  unfold Go.int64_sub, Go.wrap64, Go.int64_min, Go.int64_max. intros H.
  rewrite Z.mod_small by lia. lia.
Qed.

Lemma int64_mul_small (a b : Z) :
  Go.int64_min <= a * b <= Go.int64_max -> Go.int64_mul a b = a * b.
Proof.
  unfold Go.int64_mul, Go.wrap64, Go.int64_min, Go.int64_max. intros H.
  rewrite Z.mod_small by lia. lia.
Qed.

(** ** The input handler *)

(** C5. A pan event moves [Center.X] or [Center.Y] by the float64 constant
    0.05 (left and up subtract, right and down add); zoom-in adds 0.15 to
    [Min], subtracts 0.1 from [Max] and adds 5 to [MaxIterations]; zoom-out
    does the inverse; nothing else of the configuration changes, and each
    of the six sets [updateTexture].  ([MaxIterations] is an [int64]: the
    statement is for values that 5 more or less does not overflow.) *)
Theorem key_event_mutations (st : MainState) :
  Go.int64_min <= MaxIterations (settings st) - 5 ->
  MaxIterations (settings st) + 5 <= Go.int64_max ->
  let s := settings st in
  let c := Center s in
  let panned x y :=
    mkSettings (Width s) (Height s) (Min s) (Max s) (MaxIterations s)
      (mkPoint x y (Red c) (Green c) (Blue c)) in
  let zoomed lo hi n :=
    mkSettings (Width s) (Height s) lo hi n c in
  let after k := handleEvent st (KeyboardEvent k) in
  (settings (after K_LEFT) = panned (X c - 0.05)%float (Y c) /\
   updateTexture (after K_LEFT) = true) /\
  (settings (after K_RIGHT) = panned (X c + 0.05)%float (Y c) /\
   updateTexture (after K_RIGHT) = true) /\
  (settings (after K_DOWN) = panned (X c) (Y c + 0.05)%float /\
   updateTexture (after K_DOWN) = true) /\
  (settings (after K_UP) = panned (X c) (Y c - 0.05)%float /\
   updateTexture (after K_UP) = true) /\
  (settings (after K_EQUALS)
   = zoomed (Min s + 0.15)%float (Max s - 0.1)%float (MaxIterations s + 5) /\
   updateTexture (after K_EQUALS) = true) /\
  (settings (after K_MINUS)
   = zoomed (Min s - 0.15)%float (Max s + 0.1)%float (MaxIterations s - 5) /\
   updateTexture (after K_MINUS) = true).
Proof.
  intros Hlo Hhi s c panned zoomed after.
  assert (Hin : Go.int64_add (MaxIterations s) 5 = MaxIterations s + 5)
    by (apply int64_add_small; unfold s; lia).
  assert (Hout : Go.int64_sub (MaxIterations s) 5 = MaxIterations s - 5)
    by (apply int64_sub_small; unfold s; lia).
  unfold after, handleEvent, onKey, stop. cbn [Z.eqb Pos.eqb K_q K_LEFT K_RIGHT K_DOWN K_UP K_EQUALS K_MINUS].
  cbn [settings updateTexture].
  unfold zoomIn, zoomOut, setCenterX, setCenterY, panned, zoomed.
  fold s. fold c. rewrite Hin, Hout.
  repeat split; reflexivity.
Qed.

Lemma key_event_mutations_witness :
  Max (settings (handleEvent (loopEntry (freshImage 2 2))
                   (KeyboardEvent K_EQUALS))) = 1.8999999999999999%float /\
  MaxIterations (settings (handleEvent (loopEntry (freshImage 2 2))
                             (KeyboardEvent K_EQUALS))) = 205 /\
  updateTexture (handleEvent (loopEntry (freshImage 2 2))
                   (KeyboardEvent K_EQUALS)) = true.
Proof.
  assert (Hlo : Go.int64_min <= MaxIterations (settings (loopEntry (freshImage 2 2))) - 5)
    by (unfold Go.int64_min; simpl; lia).
  assert (Hhi : MaxIterations (settings (loopEntry (freshImage 2 2))) + 5 <= Go.int64_max)
    by (unfold Go.int64_max; simpl; lia).
  pose proof (key_event_mutations (loopEntry (freshImage 2 2)) Hlo Hhi) as H.
  cbv zeta in H.
  destruct H as (_ & _ & _ & _ & [Hs Hd] & _).
  rewrite Hs. split; [|split]; [vm_compute; reflexivity | reflexivity | exact Hd].
Defined.

(** ** The framebuffer *)

Section Framebuffer.

Implicit Types (pixels : list Z) (k n : nat).

Lemma store_in_range pixels (idx v : Z) :
  0 <= idx < Z.of_nat (length pixels) ->
  store pixels idx v = Some (<[Z.to_nat idx := v]> pixels).
Proof.
  intros H. unfold store.
  destruct (Z.leb_spec 0 idx); [|lia].
  destruct (Z.ltb_spec idx (Z.of_nat (length pixels))); [reflexivity|lia].
Qed.

Lemma length_write4 pixels n (a b c d : Z) :
  length (write4 pixels n a b c d) = length pixels.
Proof. unfold write4. rewrite !length_insert. reflexivity. Qed.

Lemma lookup_write4_ne pixels n (a b c d : Z) k :
  (k < n \/ n + 4 <= k)%nat ->
  write4 pixels n a b c d !! k = pixels !! k.
Proof.
  intros H. unfold write4.
  rewrite !list_lookup_insert_ne by lia. reflexivity.
Qed.

Lemma lookup_write4 pixels n (a b c d : Z) :
  (n + 3 < length pixels)%nat ->
  write4 pixels n a b c d !! n = Some a /\
  write4 pixels n a b c d !! (n + 1)%nat = Some b /\
  write4 pixels n a b c d !! (n + 2)%nat = Some c /\
  write4 pixels n a b c d !! (n + 3)%nat = Some d.
Proof.
  intros H. unfold write4. repeat split.
  - rewrite !list_lookup_insert_ne by lia.
    apply list_lookup_insert_eq. lia.
  - rewrite !list_lookup_insert_ne by lia.
    apply list_lookup_insert_eq. rewrite length_insert. lia.
  - rewrite !list_lookup_insert_ne by lia.
    apply list_lookup_insert_eq. rewrite !length_insert. lia.
  - apply list_lookup_insert_eq. rewrite !length_insert. lia.
Qed.

(** Four stores at consecutive indices inside the buffer all succeed. *)
Lemma four_stores pixels (i a b c d : Z) :
  0 <= i -> i + 3 < Z.of_nat (length pixels) ->
  (p ← store pixels i a; p ← store p (i + 1) b; p ← store p (i + 2) c;
   store p (i + 3) d)
  = Some (write4 pixels (Z.to_nat i) a b c d).
Proof.
  intros Hi Hlen.
  rewrite store_in_range by lia. cbn [mbind option_bind].
  rewrite store_in_range by (rewrite length_insert; lia). cbn [mbind option_bind].
  rewrite store_in_range by (rewrite !length_insert; lia). cbn [mbind option_bind].
  rewrite store_in_range by (rewrite !length_insert; lia).
  unfold write4.
  replace (Z.to_nat (i + 1)) with (Z.to_nat i + 1)%nat by lia.
  replace (Z.to_nat (i + 2)) with (Z.to_nat i + 2)%nat by lia.
  replace (Z.to_nat (i + 3)) with (Z.to_nat i + 3)%nat by lia.
  reflexivity.
Qed.

Lemma uint64_add_small (a b : Z) :
  0 <= a + b < 2 ^ 64 -> Go.uint64_add a b = a + b.
Proof. intros H. unfold Go.uint64_add, Go.wrapU64. apply Z.mod_small, H. Qed.

Lemma initBody_writes pixels (i : Z) :
  0 <= i -> i + 3 < Z.of_nat (length pixels) -> Z.of_nat (length pixels) < 2 ^ 64 ->
  initBody pixels i = Some (write4 pixels (Z.to_nat i) 0 0 0 0).
Proof.
  intros Hi Hlen H64. unfold initBody.
  rewrite !uint64_add_small by lia. apply four_stores; assumption.
Qed.

(** The loop of [Init] started at a multiple of four: with enough fuel it
    ends without a panic, having zeroed the bytes from [i] up to the first
    multiple of four that is at least [n], and no other. *)
Lemma initLoop_zeroes (fuel : nat) (n : Z) :
  forall (i : Z) pixels,
    0 <= i -> i mod 4 = 0 ->
    n + 3 <= Z.of_nat (length pixels) -> Z.of_nat (length pixels) < 2 ^ 64 ->
    n - i <= 4 * Z.of_nat fuel ->
    exists pixels',
      initLoop fuel n i pixels = Done pixels' /\
      length pixels' = length pixels /\
      (forall k, i <= Z.of_nat k < 4 * ((n + 3) / 4) -> pixels' !! k = Some 0) /\
      (forall k, Z.of_nat k < i \/ 4 * ((n + 3) / 4) <= Z.of_nat k ->
                 pixels' !! k = pixels !! k).
Proof.
  induction fuel as [|fuel IH]; intros i pixels Hi Hmod Hlen H64 Hfuel.
  - cbn [initLoop]. destruct (Z.ltb_spec i n); [lia|].
    exists pixels. split; [reflexivity|]. split; [reflexivity|].
    split; [|reflexivity].
    intros k Hk. exfalso. Z.div_mod_to_equations. lia.
  - cbn [initLoop]. destruct (Z.ltb_spec i n) as [Hlt|Hge].
    + assert (Hi3 : i + 3 < Z.of_nat (length pixels))
        by (Z.div_mod_to_equations; lia).
      rewrite initBody_writes by assumption.
      rewrite uint64_add_small by lia.
      destruct (IH (i + 4) (write4 pixels (Z.to_nat i) 0 0 0 0))
        as (pixels' & Hrun & Hlen' & Hzero & Hsame).
      * lia.
      * rewrite <- Hmod. change 4 with (1 * 4) at 1. apply Z.mod_add. lia.
      * rewrite length_write4. assumption.
      * rewrite length_write4. assumption.
      * lia.
      * rewrite length_write4 in Hlen'.
        exists pixels'. split; [exact Hrun|]. split; [exact Hlen'|]. split.
        -- intros k Hk.
           destruct (Z_lt_le_dec (Z.of_nat k) (i + 4)) as [Hin|Hout].
           ++ rewrite Hsame by lia.
              destruct (lookup_write4 pixels (Z.to_nat i) 0 0 0 0) as (E0 & E1 & E2 & E3);
                [lia|].
              assert (Hcase : (k = Z.to_nat i \/ k = Z.to_nat i + 1 \/
                               k = Z.to_nat i + 2 \/ k = Z.to_nat i + 3)%nat) by lia.
              destruct Hcase as [->|[->|[->| ->]]]; assumption.
           ++ apply Hzero. lia.
        -- intros k Hk. rewrite Hsame.
           ++ apply lookup_write4_ne. Z.div_mod_to_equations. lia.
           ++ Z.div_mod_to_equations. lia.
    + exists pixels. split; [reflexivity|]. split; [reflexivity|].
      split; [|reflexivity].
      intros k Hk. exfalso. Z.div_mod_to_equations. lia.
Qed.

(** Integer dimensions up to 53 bits survive the float arithmetic of
    [NewMandelbrotImage] and [Init]. *)
Lemma dims_exact (w h : Z) :
  1 <= w -> 1 <= h -> 4 * w * h < 2 ^ 53 ->
  Go.uint64_of_float64 (Go.float64_of_int64 w * Go.float64_of_int64 h) = w * h /\
  Go.int_of_float64 (Go.float64_of_int64 w * Go.float64_of_int64 h * 4) = 4 * w * h.
Proof.
  intros Hw Hh Hb.
  rewrite float64_mul_exact by nia.
  change 4%float with (Go.float64_of_int64 4).
  rewrite float64_mul_exact by nia.
  rewrite uint64_of_float64_of_int64 by nia.
  rewrite int_of_float64_of_int64 by nia. lia.
Qed.

Lemma Init_zeroes (w h : Z) pixels :
  1 <= w -> 1 <= h -> 4 * w * h < 2 ^ 53 ->
  Z.of_nat (length pixels) = 4 * w * h ->
  exists pixels',
    Init (mkImage (Go.float64_of_int64 w) (Go.float64_of_int64 h) pixels)
    = Done (mkImage (Go.float64_of_int64 w) (Go.float64_of_int64 h) pixels') /\
    length pixels' = length pixels /\
    (forall k, Z.of_nat k < 4 * ((w * h + 3) / 4) -> pixels' !! k = Some 0) /\
    (forall k, 4 * ((w * h + 3) / 4) <= Z.of_nat k -> pixels' !! k = pixels !! k).
Proof.
  intros Hw Hh Hb Hlen.
  destruct (dims_exact w h Hw Hh Hb) as [Hn _].
  unfold Init. cbn [imgWidth imgHeight Pixels]. rewrite Hn.
  destruct (initLoop_zeroes (Z.to_nat (w * h)) (w * h) 0 pixels)
    as (pixels' & Hrun & Hlen' & Hzero & Hsame); try nia.
  - reflexivity.
  - rewrite Hrun. exists pixels'. split; [reflexivity|]. split; [exact Hlen'|].
    split.
    + intros k Hk. apply Hzero. lia.
    + intros k Hk. apply Hsame. lia.
Qed.

Lemma make_bytes_zero (n : Z) k :
  (k < length (make_bytes n))%nat -> make_bytes n !! k = Some 0.
Proof.
  unfold make_bytes. rewrite length_replicate. intros Hk.
  apply lookup_replicate_2, Hk.
Qed.

Lemma NewMandelbrotImage_done (w h : Z) :
  1 <= w -> 1 <= h -> 4 * w * h < 2 ^ 53 ->
  NewMandelbrotImage (Go.float64_of_int64 w) (Go.float64_of_int64 h)
  = Done (freshImage (Go.float64_of_int64 w) (Go.float64_of_int64 h)).
Proof.
  intros Hw Hh Hb. destruct (dims_exact w h Hw Hh Hb) as [_ Hlen].
  unfold NewMandelbrotImage. rewrite Hlen.
  destruct (Z.ltb_spec (4 * w * h) 0); [nia | reflexivity].
Qed.

(** [Init] leaves a fresh image as it is. *)
Lemma Init_fresh (w h : Z) :
  1 <= w -> 1 <= h -> 4 * w * h < 2 ^ 53 ->
  Init (freshImage (Go.float64_of_int64 w) (Go.float64_of_int64 h))
  = Done (freshImage (Go.float64_of_int64 w) (Go.float64_of_int64 h)).
Proof.
  intros Hw Hh Hb.
  destruct (dims_exact w h Hw Hh Hb) as [_ Hlen].
  unfold freshImage. rewrite Hlen.
  destruct (Init_zeroes w h (make_bytes (4 * w * h)) Hw Hh Hb)
    as (pixels' & Hrun & Hlen' & Hzero & Hsame).
  { unfold make_bytes. rewrite length_replicate. lia. }
  rewrite Hrun. do 2 f_equal.
  apply list_eq. intros k.
  destruct (Z_lt_le_dec (Z.of_nat k) (4 * ((w * h + 3) / 4))) as [Hin|Hout].
  - rewrite Hzero by assumption. symmetry. apply make_bytes_zero.
    unfold make_bytes. rewrite length_replicate.
    Z.div_mod_to_equations. nia.
  - apply Hsame. assumption.
Qed.

Lemma DrawPoint_at (mi : MandelbrotImage) (point : Point) :
  let x := Go.int_of_float64 (X point) in
  let y := Go.int_of_float64 (Y point) in
  let w := Go.int_of_float64 (imgWidth mi) in
  0 <= x < w -> 0 <= y ->
  y * w * 4 + x * 4 + 3 < Z.of_nat (length (Pixels mi)) ->
  Z.of_nat (length (Pixels mi)) <= Go.int64_max ->
  DrawPoint mi point
  = Some (mkImage (imgWidth mi) (imgHeight mi)
            (write4 (Pixels mi) (Z.to_nat (y * w * 4 + x * 4))
               (Red point) (Green point) (Blue point) 255)).
Proof.
  intros x y w Hx Hy Hidx Hmax.
  assert (Hyw : 0 <= y * w) by nia.
  assert (Hidx' : pixelIndex mi point = y * w * 4 + x * 4).
  { unfold pixelIndex. fold x. fold y. fold w.
    unfold Go.int64_min, Go.int64_max in *.
    rewrite (int64_mul_small y w) by (unfold Go.int64_min, Go.int64_max; nia).
    rewrite (int64_mul_small (y * w) 4) by (unfold Go.int64_min, Go.int64_max; nia).
    rewrite (int64_mul_small x 4) by (unfold Go.int64_min, Go.int64_max; nia).
    apply int64_add_small. unfold Go.int64_min, Go.int64_max. nia. }
  unfold DrawPoint. rewrite Hidx'.
  unfold Go.int64_max in Hmax.
  rewrite !int64_add_small by (unfold Go.int64_min, Go.int64_max; nia).
  set (i := y * w * 4 + x * 4) in *.
  rewrite store_in_range by lia. cbn [mbind option_bind].
  rewrite store_in_range by (rewrite length_insert; lia). cbn [mbind option_bind].
  rewrite store_in_range by (rewrite !length_insert; lia). cbn [mbind option_bind].
  rewrite store_in_range by (rewrite !length_insert; lia). cbn [mbind option_bind].
  unfold write4.
  replace (Z.to_nat (i + 1)) with (Z.to_nat i + 1)%nat by lia.
  replace (Z.to_nat (i + 2)) with (Z.to_nat i + 2)%nat by lia.
  replace (Z.to_nat (i + 3)) with (Z.to_nat i + 3)%nat by lia.
  reflexivity.
Qed.

(** The same for a point at integer coordinates of an image of integer
    width, whose float fields hold those integers exactly. *)
Lemma DrawPoint_at_integer (w h x y : Z) (mi : MandelbrotImage) (point : Point) :
  0 <= x < w -> 0 <= y < h -> 4 * w * h < 2 ^ 53 ->
  imgWidth mi = Go.float64_of_int64 w ->
  Z.of_nat (length (Pixels mi)) = w * h * 4 ->
  X point = Go.float64_of_int64 x ->
  Y point = Go.float64_of_int64 y ->
  (Z.to_nat (y * w * 4 + x * 4) + 3 < length (Pixels mi))%nat /\
  DrawPoint mi point
  = Some (mkImage (imgWidth mi) (imgHeight mi)
            (write4 (Pixels mi) (Z.to_nat (y * w * 4 + x * 4))
               (Red point) (Green point) (Blue point) 255)).
Proof.
  intros Hx Hy Hb HW Hlen HX HY.
  assert (Hxi : Go.int_of_float64 (X point) = x)
    by (rewrite HX; apply int_of_float64_of_int64; nia).
  assert (Hyi : Go.int_of_float64 (Y point) = y)
    by (rewrite HY; apply int_of_float64_of_int64; nia).
  assert (Hwi : Go.int_of_float64 (imgWidth mi) = w)
    by (rewrite HW; apply int_of_float64_of_int64; nia).
  assert (Hin : y * w * 4 + x * 4 + 3 < Z.of_nat (length (Pixels mi))) by nia.
  assert (Hyw : 0 <= y * w) by nia.
  split; [lia|].
  pose proof (DrawPoint_at mi point) as HD. cbv zeta in HD.
  rewrite Hxi, Hyi, Hwi in HD.
  apply HD; [lia | lia | exact Hin | unfold Go.int64_max; lia].
Qed.

End Framebuffer.

(** C9. On an image [w] pixels wide whose buffer holds [w * h * 4] bytes,
    drawing the point at integer coordinates [0 <= x < w], [0 <= y < h]
    succeeds and stores red, green, blue and 255, in that order, in the
    four bytes from offset [y*w*4 + x*4]; every other byte, the length of
    the buffer and the dimensions stay as they were. *)
Theorem DrawPoint_writes_pixel
    (w h x y : Z) (mi : MandelbrotImage) (point : Point) :
  0 <= x < w -> 0 <= y < h -> 4 * w * h < 2 ^ 53 ->
  imgWidth mi = Go.float64_of_int64 w ->
  Z.of_nat (length (Pixels mi)) = w * h * 4 ->
  X point = Go.float64_of_int64 x ->
  Y point = Go.float64_of_int64 y ->
  let idx := Z.to_nat (y * w * 4 + x * 4) in
  exists mi',
    DrawPoint mi point = Some mi' /\
    imgWidth mi' = imgWidth mi /\ imgHeight mi' = imgHeight mi /\
    length (Pixels mi') = length (Pixels mi) /\
    Pixels mi' !! idx = Some (Red point) /\
    Pixels mi' !! (idx + 1)%nat = Some (Green point) /\
    Pixels mi' !! (idx + 2)%nat = Some (Blue point) /\
    Pixels mi' !! (idx + 3)%nat = Some 255 /\
    (forall k : nat, (k < idx \/ idx + 4 <= k)%nat ->
                     Pixels mi' !! k = Pixels mi !! k).
Proof.
  intros Hx Hy Hb HW Hlen HX HY idx.
  destruct (DrawPoint_at_integer w h x y mi point Hx Hy Hb HW Hlen HX HY)
    as [Hin HD].
  fold idx in Hin, HD. rewrite HD.
  eexists. split; [reflexivity|]. cbn [imgWidth imgHeight Pixels].
  split; [reflexivity|]. split; [reflexivity|].
  split; [apply length_write4|].
  destruct (lookup_write4 (Pixels mi) idx (Red point) (Green point) (Blue point) 255 Hin)
    as (E0 & E1 & E2 & E3).
  repeat (split; [assumption|]).
  intros k Hk. apply lookup_write4_ne, Hk.
Qed.

Lemma DrawPoint_writes_pixel_witness :
  exists mi',
    DrawPoint (freshImage 2 2) (mkPoint 1 1 10 20 30) = Some mi' /\
    Pixels mi' !! 12%nat = Some 10 /\ Pixels mi' !! 13%nat = Some 20 /\
    Pixels mi' !! 14%nat = Some 30 /\ Pixels mi' !! 15%nat = Some 255 /\
    Pixels mi' !! 11%nat = Pixels (freshImage 2 2) !! 11%nat.
Proof.
  destruct (DrawPoint_writes_pixel 2 2 1 1 (freshImage 2 2)
              (mkPoint 1 1 10 20 30))
    as (mi' & HD & _ & _ & _ & E0 & E1 & E2 & E3 & Hrest);
    try lia; try (vm_compute; reflexivity).
  exists mi'. split; [exact HD|].
  split; [exact E0|]. split; [exact E1|]. split; [exact E2|]. split; [exact E3|].
  apply Hrest. left. simpl. lia.
Defined.

(** Every worker of a pass draws its own pixel: the point comes back from
    [mandelbrotWorker] with its coordinates, so [imageWriter] stores the
    colour at the pixel's offset. *)
Lemma deliver_draws_pixel
    (w h x y : Z) (mi : MandelbrotImage) (settings : Settings) :
  0 <= x < w -> 0 <= y < h -> 4 * w * h < 2 ^ 53 ->
  imgWidth mi = Go.float64_of_int64 w ->
  Z.of_nat (length (Pixels mi)) = w * h * 4 ->
  let pt := PointXY (Go.float64_of_int64 x) (Go.float64_of_int64 y) in
  let idx := Z.to_nat (y * w * 4 + x * 4) in
  exists mi',
    deliver mi settings pt = Some mi' /\
    length (Pixels mi') = length (Pixels mi) /\
    Pixels mi' !! idx = Some (Red (mandelbrotWorker pt settings)) /\
    Pixels mi' !! (idx + 3)%nat = Some 255.
Proof.
  intros Hx Hy Hb HW Hlen pt idx.
  destruct (DrawPoint_at_integer w h x y mi (mandelbrotWorker pt settings)
              Hx Hy Hb HW Hlen eq_refl eq_refl) as [Hin HD].
  fold idx in Hin, HD. unfold deliver. rewrite HD.
  eexists. split; [reflexivity|]. cbn [Pixels].
  split; [apply length_write4|].
  destruct (lookup_write4 (Pixels mi) idx (Red (mandelbrotWorker pt settings))
              (Green (mandelbrotWorker pt settings))
              (Blue (mandelbrotWorker pt settings)) 255 Hin) as (E0 & _ & _ & E3).
  split; assumption.
Qed.

(** A point outside the grid makes [DrawPoint] panic: on a 2x2 image the
    row [y = 2] starts at the end of the buffer. *)
Lemma DrawPoint_outside_panics :
  DrawPoint (freshImage 2 2) (PointXY 0 2) = None /\
  DrawPoint (freshImage 2 2) (PointXY (-1) 0) = None.
Proof. vm_compute. split; reflexivity. Qed.

(** C10, as the program has it.  For integer dimensions [w, h >= 1] the
    buffer of [NewMandelbrotImage] has length [int(width*height*4)], that
    is [4*w*h], and every byte is zero.  [Init] never indexes outside the
    buffer and leaves the fresh image all zero.  Its loop visits
    [i = 0, 4, 8, ...] below [n = uint64(width*height)] and stores four
    bytes at each: on any buffer of that size it zeroes exactly the bytes
    below the first multiple of four that is at least [n], which is [n]
    itself, a quarter of the buffer, when [n] is a multiple of four. *)
Theorem fresh_image_and_Init (w h : Z) :
  1 <= w -> 1 <= h -> 4 * w * h < 2 ^ 53 ->
  let W := Go.float64_of_int64 w in
  let H := Go.float64_of_int64 h in
  let mi := freshImage W H in
  let n := Go.uint64_of_float64 (W * H) in
  let written := 4 * ((n + 3) / 4) in
  NewMandelbrotImage W H = Done mi /\
  length (Pixels mi) = Z.to_nat (Go.int_of_float64 (W * H * 4)) /\
  Z.of_nat (length (Pixels mi)) = 4 * w * h /\
  (forall k : nat, (k < length (Pixels mi))%nat -> Pixels mi !! k = Some 0) /\
  Init mi = Done mi /\
  n = w * h /\
  written <= Z.of_nat (length (Pixels mi)) /\
  (n mod 4 = 0 -> written = n) /\
  (forall pixels : list Z,
     length pixels = length (Pixels mi) ->
     exists pixels',
       Init (mkImage W H pixels) = Done (mkImage W H pixels') /\
       length pixels' = length pixels /\
       (forall k : nat, Z.of_nat k < written -> pixels' !! k = Some 0) /\
       (forall k : nat, written <= Z.of_nat k -> pixels' !! k = pixels !! k)).
Proof.
  intros Hw Hh Hb W H mi n written. subst W H mi n written.
  destruct (dims_exact w h Hw Hh Hb) as [Hn Hlen].
  assert (HL : Z.of_nat (length (Pixels (freshImage (Go.float64_of_int64 w)
                                           (Go.float64_of_int64 h)))) = 4 * w * h).
  { unfold freshImage. cbn [Pixels]. unfold make_bytes.
    rewrite length_replicate, Hlen. lia. }
  split; [apply NewMandelbrotImage_done; assumption|].
  split.
  { unfold freshImage. cbn [Pixels]. unfold make_bytes.
    apply length_replicate. }
  split; [exact HL|].
  split; [intros k Hk; apply make_bytes_zero, Hk|].
  split; [apply Init_fresh; assumption|].
  split; [exact Hn|].
  rewrite Hn, HL.
  split; [Z.div_mod_to_equations; nia|].
  split; [intros Hmod; Z.div_mod_to_equations; lia|].
  intros pixels Hpx. apply Init_zeroes; try assumption. lia.
Qed.

Lemma fresh_image_and_Init_witness :
  NewMandelbrotImage 800 800 = Done (freshImage 800 800) /\
  Init (freshImage 800 800) = Done (freshImage 800 800) /\
  Z.of_nat (length (Pixels (freshImage 800 800))) = 2560000.
Proof.
  assert (Hb : 4 * 800 * 800 < 2 ^ 53) by lia.
  destruct (fresh_image_and_Init 800 800 ltac:(lia) ltac:(lia) Hb)
    as (HN & _ & HL & _ & HI & _).
  change (Go.float64_of_int64 800) with 800%float in HN, HI, HL.
  split; [exact HN|]. split; [exact HI | exact HL].
Defined.

(** The loop of [Init] on a 1x1 image whose pixel has been drawn: it stores
    at index 3, although [uint64(width*height) - 1] is 0. *)
Lemma Init_writes_beyond_pixel_count :
  NewMandelbrotImage 1 1 = Done (freshImage 1 1) /\
  DrawPoint (freshImage 1 1) (mkPoint 0 0 1 2 3)
  = Some (mkImage 1 1 [1; 2; 3; 255]) /\
  Go.uint64_of_float64 (1 * 1) - 1 = 0 /\
  Init (mkImage 1 1 [1; 2; 3; 255]) = Done (mkImage 1 1 [0; 0; 0; 0]).
Proof. vm_compute. repeat split; reflexivity. Qed.

(** ** The start of [main] *)

Lemma mainStart_done :
  mainStart = Done (loopEntry (freshImage 800 800)).
Proof.
  unfold mainStart. cbn [settings0 Width Height].
  change 800%float with (Go.float64_of_int64 800).
  rewrite NewMandelbrotImage_done by lia. cbn [outcome_bind].
  rewrite Init_fresh by lia. reflexivity.
Qed.

(** C6. [main] reaches its run loop with the configuration
    width = height = 800, Min = -2.84, Max = 2.0, MaxIterations = 200 and
    centre (0.5, 0.0). *)
Theorem initial_configuration :
  exists st,
    mainStart = Done st /\
    Width (settings st) = 800%float /\
    Height (settings st) = 800%float /\
    Min (settings st) = (-2.84)%float /\
    Max (settings st) = 2.0%float /\
    MaxIterations (settings st) = 200 /\
    X (Center (settings st)) = 0.5%float /\
    Y (Center (settings st)) = 0.0%float.
Proof.
  exists (loopEntry (freshImage 800 800)).
  split; [exact mainStart_done|]. repeat split; reflexivity.
Qed.

(** The renderer-based variant starts from the plane [-1, 1]. *)
Lemma renderer_variant_plane :
  Min RendererVariant.settings0 = (-1)%float /\
  Max RendererVariant.settings0 = 1%float.
Proof. split; reflexivity. Qed.

(** ** The run loop *)

Section RunLoop.

Implicit Types (st : MainState) (events : list Event).

(** What one event does to the configuration: the key codes are pairwise
    different, so at most one of the [if]s fires. *)
Lemma handleEvent_settings st (event : Event) :
  settings (handleEvent st event)
  = match event with
    | KeyboardEvent k =>
        if k =? K_LEFT then setCenterX (fun x => x - 0.05)%float (settings st)
        else if k =? K_RIGHT then setCenterX (fun x => x + 0.05)%float (settings st)
        else if k =? K_DOWN then setCenterY (fun y => y + 0.05)%float (settings st)
        else if k =? K_UP then setCenterY (fun y => y - 0.05)%float (settings st)
        else if k =? K_EQUALS then zoomIn (settings st)
        else if k =? K_MINUS then zoomOut (settings st)
        else settings st
    | _ => settings st
    end.
Proof.
  destruct event as [|k|]; try reflexivity.
  destruct (Z.eqb_spec k K_LEFT) as [->|?]; [reflexivity|].
  destruct (Z.eqb_spec k K_RIGHT) as [->|?]; [reflexivity|].
  destruct (Z.eqb_spec k K_DOWN) as [->|?]; [reflexivity|].
  destruct (Z.eqb_spec k K_UP) as [->|?]; [reflexivity|].
  destruct (Z.eqb_spec k K_EQUALS) as [->|?]; [reflexivity|].
  destruct (Z.eqb_spec k K_MINUS) as [->|?]; [reflexivity|].
  unfold handleEvent, onKey.
  repeat match goal with
         | H : ?a <> ?b |- context [Z.eqb ?a ?b] =>
             destruct (Z.eqb_spec a b); [contradiction|]
         end.
  destruct (k =? K_q); reflexivity.
Qed.

Lemma onKey_frame st (keyCode k : Z) (f : Settings -> Settings) :
  spawned (onKey keyCode k f st) = spawned st /\
  mandelbrotImg (onKey keyCode k f st) = mandelbrotImg st.
Proof. unfold onKey. destruct (keyCode =? k); split; reflexivity. Qed.

Lemma handleEvent_frame st (event : Event) :
  spawned (handleEvent st event) = spawned st /\
  mandelbrotImg (handleEvent st event) = mandelbrotImg st.
Proof.
  destruct event as [|k|]; try (split; reflexivity).
  unfold handleEvent.
  repeat match goal with
         | |- context [onKey ?c ?k ?f ?s] =>
             destruct (onKey_frame s c k f) as [-> ->]
         end.
  destruct (k =? K_q); split; reflexivity.
Qed.

Lemma pollEvents_frame events :
  forall st,
    spawned (pollEvents st events) = spawned st /\
    mandelbrotImg (pollEvents st events) = mandelbrotImg st.
Proof.
  induction events as [|event events IH]; intros st; [split; reflexivity|].
  cbn [pollEvents foldl]. fold (pollEvents (handleEvent st event) events).
  destruct (IH (handleEvent st event)) as [-> ->]. apply handleEvent_frame.
Qed.

Lemma zoomBalance_bound events :
  - Z.of_nat (length events) <= zoomBalance events <= Z.of_nat (length events).
Proof.
  induction events as [|[|k|] events IH]; cbn [zoomBalance length]; try lia.
  destruct (k =? K_EQUALS); [lia|]. destruct (k =? K_MINUS); lia.
Qed.

(** Any sequence of events keeps the size, and moves [MaxIterations] by 5
    per zoom, up or down. *)
Lemma pollEvents_settings events :
  forall st,
    Go.int64_min <= MaxIterations (settings st) - 5 * Z.of_nat (length events) ->
    MaxIterations (settings st) + 5 * Z.of_nat (length events) <= Go.int64_max ->
    Width (settings (pollEvents st events)) = Width (settings st) /\
    Height (settings (pollEvents st events)) = Height (settings st) /\
    MaxIterations (settings (pollEvents st events))
    = MaxIterations (settings st) + 5 * zoomBalance events.
Proof.
  induction events as [|event events IH]; intros st Hlo Hhi.
  - cbn. repeat split; lia.
  - cbn [pollEvents foldl]. fold (pollEvents (handleEvent st event) events).
    cbn [length] in Hlo, Hhi.
    pose proof (handleEvent_settings st event) as Hs.
    assert (Hstep :
      Width (settings (handleEvent st event)) = Width (settings st) /\
      Height (settings (handleEvent st event)) = Height (settings st) /\
      MaxIterations (settings (handleEvent st event))
      = MaxIterations (settings st) + 5 * zoomBalance [event]).
    { rewrite Hs. destruct event as [|k|]; cbn [zoomBalance];
        try (repeat split; lia).
      destruct (Z.eqb_spec k K_LEFT), (Z.eqb_spec k K_RIGHT), (Z.eqb_spec k K_DOWN),
        (Z.eqb_spec k K_UP), (Z.eqb_spec k K_EQUALS), (Z.eqb_spec k K_MINUS);
        try (exfalso; unfold K_LEFT, K_RIGHT, K_DOWN, K_UP, K_EQUALS, K_MINUS in *; lia);
        cbn [zoomIn zoomOut setCenterX setCenterY Width Height MaxIterations];
        rewrite ?int64_add_small, ?int64_sub_small by lia;
        repeat split; try reflexivity; lia. }
    destruct Hstep as (HW & HH & HM).
    pose proof (zoomBalance_bound [event]) as Hb. cbn [length] in Hb.
    destruct (IH (handleEvent st event)) as (HW' & HH' & HM'); [lia | lia |].
    rewrite HW', HH', HM', HW, HH, HM.
    repeat split; try reflexivity.
    destruct event as [|k|]; cbn [zoomBalance]; lia.
Qed.

(** Events other than zooms leave the plane and the iteration bound. *)
Lemma pollEvents_no_zoom events :
  forall st,
    forallb (fun e => negb (isZoom e)) events = true ->
    Min (settings (pollEvents st events)) = Min (settings st) /\
    Max (settings (pollEvents st events)) = Max (settings st) /\
    MaxIterations (settings (pollEvents st events)) = MaxIterations (settings st) /\
    Width (settings (pollEvents st events)) = Width (settings st) /\
    Height (settings (pollEvents st events)) = Height (settings st).
Proof.
  induction events as [|event events IH]; intros st Hnz.
  - repeat split; reflexivity.
  - cbn [pollEvents foldl]. fold (pollEvents (handleEvent st event) events).
    cbn [forallb] in Hnz. apply andb_true_iff in Hnz as [Hev Hrest].
    destruct (IH (handleEvent st event) Hrest) as (-> & -> & -> & -> & ->).
    rewrite handleEvent_settings.
    destruct event as [|k|]; try (repeat split; reflexivity).
    cbn [isZoom] in Hev. apply negb_true_iff, orb_false_iff in Hev as [He Hm].
    rewrite He, Hm.
    repeat match goal with |- context [if ?b then _ else _] => destruct b end;
      repeat split; reflexivity.
Qed.

Lemma length_bind_const {A B : Type} (f : A -> list B) (l : list A) (c : nat) :
  (forall a, length (f a) = c) -> length (l ≫= f) = (length l * c)%nat.
Proof.
  intros Hf. induction l as [|a l IH]; [reflexivity|].
  rewrite bind_cons, length_app, IH, Hf. reflexivity.
Qed.

Lemma length_ForceRender (mi : MandelbrotImage) :
  length (ForceRender mi)
  = (Z.to_nat (Go.int_of_float64 (imgWidth mi))
     * Z.to_nat (Go.int_of_float64 (imgHeight mi)))%nat.
Proof.
  unfold ForceRender.
  rewrite (length_bind_const _ _ (Z.to_nat (Go.int_of_float64 (imgHeight mi)))).
  - rewrite length_seqZ. reflexivity.
  - intros i. rewrite (length_bind_const _ _ 1%nat).
    + rewrite length_seqZ. lia.
    + reflexivity.
Qed.

End RunLoop.

Lemma tick_protocol (st : MainState) (events : list Event) :
  let polled := pollEvents st events in
  let st' := tick st events in
  updateTexture st' = false /\
  settings st' = settings polled /\
  mandelbrotImg st' = mandelbrotImg st /\
  (updateTexture polled = true ->
   spawned st' = spawned st ++ ForceRender (mandelbrotImg st)) /\
  (updateTexture polled = false -> spawned st' = spawned st).
Proof.
  intros polled st'. subst st'. unfold tick, renderIfDirty. fold polled.
  destruct (pollEvents_frame events st) as [Hsp Himg]. fold polled in Hsp, Himg.
  destruct (updateTexture polled) eqn:Hflag;
    cbn [updateTexture settings mandelbrotImg spawned];
    rewrite ?Hsp, ?Himg; repeat split; try reflexivity; try discriminate; auto.
Qed.

(** Between ticks the flag is clear: whatever the events, the loop never
    carries a set flag into the next tick. *)
Lemma runLoop_flag_clear (ticks : list (list Event)) :
  forall st : MainState,
    updateTexture st = false -> updateTexture (runLoop st ticks) = false.
Proof.
  induction ticks as [|events ticks IH]; intros st Hst; cbn [runLoop].
  - exact Hst.
  - destruct (running st); [|exact Hst].
    apply IH. apply tick_protocol.
Qed.

(** C3, as the program has it.  [main] dispatches the first pass by an
    explicit call of [ForceRender] before the loop, and enters the loop with
    [updateTexture] false.  At each tick the loop dispatches a pass exactly
    when the flag is set once the tick's events are handled, and the flag is
    false when the tick ends: it is cleared right after the call of
    [ForceRender], so the loop never carries a set flag from one tick to
    the next. *)
Theorem render_trigger_protocol :
  (exists st0,
     mainStart = Done st0 /\
     updateTexture st0 = false /\
     spawned st0 = ForceRender (mandelbrotImg st0) /\
     Z.of_nat (length (spawned st0)) = 640000) /\
  (forall (st : MainState) (events : list Event),
     let polled := pollEvents st events in
     let st' := tick st events in
     updateTexture st' = false /\
     settings st' = settings polled /\
     mandelbrotImg st' = mandelbrotImg st /\
     (updateTexture polled = true ->
      spawned st' = spawned st ++ ForceRender (mandelbrotImg st)) /\
     (updateTexture polled = false -> spawned st' = spawned st)) /\
  (forall (st : MainState) (ticks : list (list Event)),
     updateTexture st = false -> updateTexture (runLoop st ticks) = false).
Proof.
  split; [|split; [|intros st ticks; apply runLoop_flag_clear]].
  - exists (loopEntry (freshImage 800 800)).
    split; [exact mainStart_done|]. split; [reflexivity|]. split; [reflexivity|].
    cbn [loopEntry spawned]. rewrite length_ForceRender.
    cbn [freshImage imgWidth imgHeight].
    replace (Go.int_of_float64 800) with 800 by (vm_compute; reflexivity). lia.
  - intros st events. apply tick_protocol.
Qed.

(** What a zooming iteration of the run loop does to the program. *)
Lemma step_zoom_tick (p : Program) :
  running (loopState p) = true ->
  updateTexture (loopState p) = false ->
  exists p',
    step p (LoopTick [KeyboardEvent K_EQUALS]) = Some p' /\
    running (loopState p') = true /\
    updateTexture (loopState p') = false /\
    mandelbrotImg (loopState p') = mandelbrotImg (loopState p) /\
    inFlight p' = inFlight p ++ ForceRender (mandelbrotImg (loopState p)).
Proof.
  intros Hrun Hflag. cbn [step]. rewrite Hrun. eexists. split; [reflexivity|].
  cbn [loopState inFlight].
  destruct (tick_protocol (loopState p) [KeyboardEvent K_EQUALS])
    as (Hclear & _ & Himg & Hset & _).
  assert (Hpolled : updateTexture (pollEvents (loopState p) [KeyboardEvent K_EQUALS])
                    = true) by reflexivity.
  specialize (Hset Hpolled).
  split.
  { unfold tick, renderIfDirty. rewrite Hpolled. cbn [running].
    cbn [pollEvents foldl handleEvent Z.eqb Pos.eqb K_q K_EQUALS]. exact Hrun. }
  split; [exact Hclear|]. split; [exact Himg|].
  unfold newWorkers. rewrite Hset, drop_app_length. reflexivity.
Qed.

(** The claim against the program.  The flag is false when the loop is
    entered, the first pass having been dispatched before it.  A tick with
    a zoom key dispatches a pass and ends with the flag false while each of
    the 640000 workers of that pass is still in flight and the image is
    still the blank one, no point of any pass drawn; the tick after it
    dispatches a further pass on top of the two that are not complete. *)
Lemma trigger_starts_clear_and_clears_at_dispatch :
  exists p0 p1 p2 : Program,
    programStart = Done p0 /\
    updateTexture (loopState p0) = false /\
    inFlight p0 = ForceRender (freshImage 800 800) /\
    Z.of_nat (length (ForceRender (freshImage 800 800))) = 640000 /\
    step p0 (LoopTick [KeyboardEvent K_EQUALS]) = Some p1 /\
    updateTexture (loopState p1) = false /\
    mandelbrotImg (loopState p1) = freshImage 800 800 /\
    inFlight p1 = ForceRender (freshImage 800 800) ++ ForceRender (freshImage 800 800) /\
    step p1 (LoopTick [KeyboardEvent K_EQUALS]) = Some p2 /\
    mandelbrotImg (loopState p2) = freshImage 800 800 /\
    inFlight p2 = inFlight p1 ++ ForceRender (freshImage 800 800) /\
    run p0 [LoopTick [KeyboardEvent K_EQUALS]; LoopTick [KeyboardEvent K_EQUALS]]
    = Some p2.
Proof.
  set (p0 := {| loopState := loopEntry (freshImage 800 800);
                inFlight := ForceRender (freshImage 800 800) |}).
  destruct (step_zoom_tick p0 eq_refl eq_refl) as (p1 & H1 & Hr1 & Hf1 & Hi1 & Hw1).
  destruct (step_zoom_tick p1 Hr1 Hf1) as (p2 & H2 & _ & _ & Hi2 & Hw2).
  exists p0, p1, p2.
  split. { unfold programStart. rewrite mainStart_done. reflexivity. }
  split; [reflexivity|]. split; [reflexivity|].
  split.
  { rewrite length_ForceRender. cbn [freshImage imgWidth imgHeight].
    replace (Go.int_of_float64 800) with 800 by (vm_compute; reflexivity). lia. }
  split; [exact H1|]. split; [exact Hf1|]. split; [exact Hi1|].
  split; [exact Hw1|]. split; [exact H2|].
  split; [rewrite Hi2; exact Hi1|].
  split; [rewrite Hw2, Hi1; reflexivity|].
  cbn [run]. rewrite H1. cbn [mbind option_bind]. rewrite H2. reflexivity.
Qed.

(** One worker's point going through [imageWriter]. *)
Lemma step_WorkerDone_eq (p : Program) (k : nat) :
  step p (WorkerDone k)
  = (pt ← inFlight p !! k;
     mi ← deliver (mandelbrotImg (loopState p)) (settings (loopState p)) pt;
     Some {| loopState := withImage mi (loopState p);
             inFlight := delete k (inFlight p) |}).
Proof. reflexivity. Qed.

Lemma option_bind_Some {A B : Type} (f : A -> option B) (a : A) :
  (Some a ≫= f) = f a.
Proof. reflexivity. Qed.

Lemma lookup_head {A : Type} (x : A) (l : list A) : (x :: l) !! 0%nat = Some x.
Proof. reflexivity. Qed.

Lemma step_WorkerDone (st : MainState) (pt : Point) (pending : list Point)
    (mi : MandelbrotImage) :
  deliver (mandelbrotImg st) (settings st) pt = Some mi ->
  step {| loopState := st; inFlight := pt :: pending |} (WorkerDone 0)
  = Some {| loopState := withImage mi st; inFlight := pending |}.
Proof.
  intros Hd. rewrite step_WorkerDone_eq.
  cbn [loopState inFlight].
  rewrite (lookup_head pt pending), option_bind_Some, Hd, option_bind_Some.
  reflexivity.
Qed.

Lemma withImage_withImage (mi mi1 : MandelbrotImage) (st : MainState) :
  withImage mi (withImage mi1 st) = withImage mi st.
Proof. reflexivity. Qed.

Lemma imageWriter_cons (mi : MandelbrotImage) (pt : Point) (jobs : list Point) :
  imageWriter mi (pt :: jobs) = (mi' ← DrawPoint mi pt; imageWriter mi' jobs).
Proof. reflexivity. Qed.

Lemma run_cons (p : Program) (s : Step) (steps : list Step) :
  run p (s :: steps) = (p' ← step p s; run p' steps).
Proof. reflexivity. Qed.

Lemma deliver_eq (mi : MandelbrotImage) (settings : Settings) (pt : Point) :
  deliver mi settings pt = DrawPoint mi (mandelbrotWorker pt settings).
Proof. reflexivity. Qed.

(** The workers in flight going through [imageWriter] one after the other,
    with no iteration of the run loop in between, are a render pass: they
    leave what [imageWriter] makes of their points, and nothing in
    flight. *)
Lemma run_workers_in_flight (pending : list Point) :
  forall (st : MainState) (mi' : MandelbrotImage),
    imageWriter (mandelbrotImg st)
      ((fun pt => mandelbrotWorker pt (settings st)) <$> pending) = Some mi' ->
    run {| loopState := st; inFlight := pending |}
        (replicate (length pending) (WorkerDone 0))
    = Some {| loopState := withImage mi' st; inFlight := [] |}.
Proof.
  induction pending as [|pt pending IH]; intros st mi' Hw.
  - injection Hw as <-. destruct st. reflexivity.
  - rewrite fmap_cons, imageWriter_cons in Hw.
    cbv beta in Hw. rewrite <- (deliver_eq (mandelbrotImg st) (settings st) pt) in Hw.
    destruct (deliver (mandelbrotImg st) (settings st) pt) as [mi1|] eqn:Hd;
      [|discriminate Hw].
    rewrite option_bind_Some in Hw.
    cbn [length replicate]. rewrite run_cons.
    rewrite (step_WorkerDone st pt pending mi1 Hd), option_bind_Some.
    rewrite (IH (withImage mi1 st) mi' Hw). rewrite withImage_withImage. reflexivity.
Qed.

(** ** The configuration invariant under the input handler *)

(** C2, as the program has it.  The handler never changes [Width] or
    [Height].  Events other than zooms leave [Min], [Max] and
    [MaxIterations] as they are, so they keep the configuration invariant.
    Zooms are applied unconditionally, with no clamp and no refusal: after
    any sequence of events [MaxIterations] is its initial value plus 5 per
    zoom-in and minus 5 per zoom-out (within [int64]). *)
Theorem handler_keeps_size_and_pans_keep_invariant
    (st : MainState) (events : list Event) :
  Go.int64_min <= MaxIterations (settings st) - 5 * Z.of_nat (length events) ->
  MaxIterations (settings st) + 5 * Z.of_nat (length events) <= Go.int64_max ->
  let s := settings st in
  let s' := settings (pollEvents st events) in
  Width s' = Width s /\
  Height s' = Height s /\
  MaxIterations s' = MaxIterations s + 5 * zoomBalance events /\
  (forallb (fun e => negb (isZoom e)) events = true ->
   Min s' = Min s /\ Max s' = Max s /\ MaxIterations s' = MaxIterations s /\
   (configInvariant s -> configInvariant s')).
Proof.
  intros Hlo Hhi s s'.
  destruct (pollEvents_settings events st Hlo Hhi) as (HW & HH & HM).
  split; [exact HW|]. split; [exact HH|]. split; [exact HM|].
  intros Hnz.
  destruct (pollEvents_no_zoom events st Hnz) as (Hmin & Hmax & Hit & _ & _).
  split; [exact Hmin|]. split; [exact Hmax|]. split; [exact Hit|].
  unfold configInvariant. subst s s'. rewrite Hmin, Hmax, Hit, HW, HH. auto.
Qed.

Lemma handler_keeps_size_and_pans_keep_invariant_witness :
  let st := loopEntry (freshImage 2 2) in
  let events := [KeyboardEvent K_LEFT; KeyboardEvent K_DOWN; OtherEvent] in
  configInvariant (settings st) /\
  configInvariant (settings (pollEvents st events)) /\
  X (Center (settings (pollEvents st events))) = 0.45000000000000001%float.
Proof.
  intros st events.
  assert (Hinv : configInvariant (settings st)).
  { unfold configInvariant. cbn. repeat split; try reflexivity. lia. }
  assert (Hlo : Go.int64_min
                <= MaxIterations (settings st) - 5 * Z.of_nat (length events))
    by (unfold Go.int64_min; cbn; lia).
  assert (Hhi : MaxIterations (settings st) + 5 * Z.of_nat (length events)
                <= Go.int64_max)
    by (unfold Go.int64_max; cbn; lia).
  destruct (handler_keeps_size_and_pans_keep_invariant st events Hlo Hhi)
    as (_ & _ & _ & Hpan).
  destruct (Hpan eq_refl) as (_ & _ & _ & Hkeep).
  split; [exact Hinv|]. split; [exact (Hkeep Hinv)|].
  vm_compute. reflexivity.
Defined.

(** From the initial configuration, forty zoom-outs bring [MaxIterations]
    to 0 and twenty zoom-ins bring [Max] below [Min]: the handler does not
    keep the invariant. *)
Lemma zooms_break_invariant :
  exists st0,
    mainStart = Done st0 /\
    configInvariant (settings st0) /\
    MaxIterations (settings (pollEvents st0 (replicate 40 (KeyboardEvent K_MINUS)))) = 0 /\
    ~ configInvariant (settings (pollEvents st0 (replicate 40 (KeyboardEvent K_MINUS)))) /\
    (Max (settings (pollEvents st0 (replicate 20 (KeyboardEvent K_EQUALS))))
     <? Min (settings (pollEvents st0 (replicate 20 (KeyboardEvent K_EQUALS)))))%float
    = true /\
    ~ configInvariant (settings (pollEvents st0 (replicate 20 (KeyboardEvent K_EQUALS)))).
Proof.
  exists (loopEntry (freshImage 800 800)).
  split; [exact mainStart_done|].
  split.
  { unfold configInvariant. cbn. repeat split; try reflexivity. lia. }
  assert (H40 : MaxIterations (settings (pollEvents (loopEntry (freshImage 800 800))
                  (replicate 40 (KeyboardEvent K_MINUS)))) = 0) by reflexivity.
  assert (H20 : (Min (settings (pollEvents (loopEntry (freshImage 800 800))
                    (replicate 20 (KeyboardEvent K_EQUALS))))
                 <? Max (settings (pollEvents (loopEntry (freshImage 800 800))
                    (replicate 20 (KeyboardEvent K_EQUALS)))))%float = false)
    by reflexivity.
  split; [exact H40|]. split.
  { unfold configInvariant. rewrite H40. intros (_ & Hit & _). lia. }
  split; [reflexivity|].
  unfold configInvariant. rewrite H20. intros (Hlt & _). discriminate Hlt.
Qed.

(** * Further properties of the program *)

(** ** DrawPoint at any point *)

Section DrawAnywhere.

Implicit Types (mi : MandelbrotImage) (pt : Point).

Lemma store_length (pixels p : list Z) (idx v : Z) :
  store pixels idx v = Some p -> length p = length pixels.
Proof.
  unfold store. destruct (_ && _); [|discriminate].
  intros [= <-]. apply length_insert.
Qed.

Lemma store_fails (pixels : list Z) (idx v : Z) :
  idx < 0 \/ Z.of_nat (length pixels) <= idx -> store pixels idx v = None.
Proof.
  intros H. unfold store.
  destruct (Z.leb_spec 0 idx), (Z.ltb_spec idx (Z.of_nat (length pixels)));
    try reflexivity; lia.
Qed.

Lemma pixelIndex_offset mi pt :
  - 2 ^ 30 < (pixelOf pt).1 < 2 ^ 30 -> - 2 ^ 30 < (pixelOf pt).2 < 2 ^ 30 ->
  - 2 ^ 30 < Go.int_of_float64 (imgWidth mi) < 2 ^ 30 ->
  pixelIndex mi pt = offsetOf (Go.int_of_float64 (imgWidth mi)) (pixelOf pt).
Proof.
  unfold pixelOf, offsetOf, pixelIndex. cbn [fst snd].
  set (x := Go.int_of_float64 (X pt)). set (y := Go.int_of_float64 (Y pt)).
  set (w := Go.int_of_float64 (imgWidth mi)). intros Hx Hy Hw.
  assert (Hyw : - 2 ^ 60 < y * w < 2 ^ 60) by nia.
  rewrite (int64_mul_small y w) by (unfold Go.int64_min, Go.int64_max; lia).
  rewrite (int64_mul_small (y * w) 4) by (unfold Go.int64_min, Go.int64_max; lia).
  rewrite (int64_mul_small x 4) by (unfold Go.int64_min, Go.int64_max; lia).
  apply int64_add_small. unfold Go.int64_min, Go.int64_max. lia.
Qed.

End DrawAnywhere.

(** X1. [DrawPoint] checks nothing but the slice bounds: with [idx] the
    offset [y*width*4 + x*4] of the truncated coordinates, it stores the
    four bytes when [0 <= idx] and [idx + 3] is inside the buffer, and
    panics otherwise, whether or not [x] is below the width. *)
Theorem DrawPoint_succeeds_iff_offset_in_buffer
    (mi : MandelbrotImage) (pt : Point) :
  - 2 ^ 30 < (pixelOf pt).1 < 2 ^ 30 -> - 2 ^ 30 < (pixelOf pt).2 < 2 ^ 30 ->
  - 2 ^ 30 < Go.int_of_float64 (imgWidth mi) < 2 ^ 30 ->
  Z.of_nat (length (Pixels mi)) < 2 ^ 62 ->
  let idx := offsetOf (Go.int_of_float64 (imgWidth mi)) (pixelOf pt) in
  DrawPoint mi pt
  = if (0 <=? idx) && (idx + 3 <? Z.of_nat (length (Pixels mi)))
    then Some (mkImage (imgWidth mi) (imgHeight mi)
                 (write4 (Pixels mi) (Z.to_nat idx)
                    (Red pt) (Green pt) (Blue pt) 255))
    else None.
Proof.
  intros Hx Hy Hw HL idx.
  pose proof (pixelIndex_offset mi pt Hx Hy Hw) as Hidx. fold idx in Hidx.
  assert (Hb : - 2 ^ 63 + 8 < idx < 2 ^ 63 - 8).
  { unfold idx, offsetOf.
    assert (- 2 ^ 60 < (pixelOf pt).2 * Go.int_of_float64 (imgWidth mi) < 2 ^ 60) by nia.
    lia. }
  unfold DrawPoint. rewrite Hidx.
  rewrite !int64_add_small by (unfold Go.int64_min, Go.int64_max; lia).
  destruct (Z.leb_spec 0 idx) as [H0|H0]; cbn [andb].
  2:{ rewrite store_fails by lia. reflexivity. }
  destruct (Z.ltb_spec (idx + 3) (Z.of_nat (length (Pixels mi)))) as [H3|H3].
  - rewrite store_in_range by lia. cbn [mbind option_bind].
    rewrite store_in_range by (rewrite length_insert; lia). cbn [mbind option_bind].
    rewrite store_in_range by (rewrite !length_insert; lia). cbn [mbind option_bind].
    rewrite store_in_range by (rewrite !length_insert; lia). cbn [mbind option_bind].
    unfold write4.
    replace (Z.to_nat (idx + 1)) with (Z.to_nat idx + 1)%nat by lia.
    replace (Z.to_nat (idx + 2)) with (Z.to_nat idx + 2)%nat by lia.
    replace (Z.to_nat (idx + 3)) with (Z.to_nat idx + 3)%nat by lia.
    reflexivity.
  - destruct (store (Pixels mi) idx (Red pt)) as [p1|] eqn:E1; [|reflexivity].
    apply store_length in E1. cbn [mbind option_bind].
    destruct (store p1 (idx + 1) (Green pt)) as [p2|] eqn:E2; [|reflexivity].
    apply store_length in E2. cbn [mbind option_bind].
    destruct (store p2 (idx + 2) (Blue pt)) as [p3|] eqn:E3; [|reflexivity].
    apply store_length in E3. cbn [mbind option_bind].
    rewrite store_fails by lia. reflexivity.
Qed.

Lemma DrawPoint_succeeds_iff_offset_in_buffer_witness :
  DrawPoint (freshImage 2 2) (mkPoint 3 0 7 8 9)
  = Some (mkImage 2 2 [0; 0; 0; 0; 0; 0; 0; 0; 0; 0; 0; 0; 7; 8; 9; 255]) /\
  DrawPoint (freshImage 2 2) (mkPoint 1 1 7 8 9)
  = DrawPoint (freshImage 2 2) (mkPoint 3 0 7 8 9) /\
  DrawPoint (freshImage 2 2) (mkPoint 0 2 7 8 9) = None.
Proof.
  assert (H : forall pt,
             - 2 ^ 30 < (pixelOf pt).1 < 2 ^ 30 -> - 2 ^ 30 < (pixelOf pt).2 < 2 ^ 30 ->
             DrawPoint (freshImage 2 2) pt
             = if (0 <=? offsetOf 2 (pixelOf pt))
                  && (offsetOf 2 (pixelOf pt) + 3 <? 16)
               then Some (mkImage 2 2
                            (write4 (Pixels (freshImage 2 2))
                               (Z.to_nat (offsetOf 2 (pixelOf pt)))
                               (Red pt) (Green pt) (Blue pt) 255))
               else None).
  { intros pt Hx Hy.
    apply (DrawPoint_succeeds_iff_offset_in_buffer (freshImage 2 2) pt Hx Hy);
      vm_compute; split; reflexivity || discriminate. }
  split; [|split].
  - rewrite H by (vm_compute; split; reflexivity). vm_compute. reflexivity.
  - rewrite !H by (vm_compute; split; reflexivity). vm_compute. reflexivity.
  - rewrite H by (vm_compute; split; reflexivity). vm_compute. reflexivity.
Defined.

(** ** ForceRender spawns the grid *)

Lemma elem_of_ForceRender (mi : MandelbrotImage) (pt : Point) :
  pt ∈ ForceRender mi <->
  exists i j : Z,
    0 <= i < Go.int_of_float64 (imgWidth mi) /\
    0 <= j < Go.int_of_float64 (imgHeight mi) /\
    pt = PointXY (Go.float64_of_int64 i) (Go.float64_of_int64 j).
Proof.
  unfold ForceRender. rewrite list_elem_of_bind. split.
  - intros (i & Hpt & Hi). apply list_elem_of_bind in Hpt as (j & Hpt & Hj).
    apply list_elem_of_singleton in Hpt.
    apply elem_of_seqZ in Hi. apply elem_of_seqZ in Hj.
    exists i, j. repeat split; try lia. exact Hpt.
  - intros (i & j & Hi & Hj & ->). exists i. split.
    + apply list_elem_of_bind. exists j. split.
      * apply list_elem_of_singleton. reflexivity.
      * apply elem_of_seqZ. lia.
    + apply elem_of_seqZ. lia.
Qed.

Lemma pixelOf_PointXY (i j : Z) :
  0 <= i < 2 ^ 53 -> 0 <= j < 2 ^ 53 ->
  pixelOf (PointXY (Go.float64_of_int64 i) (Go.float64_of_int64 j)) = (i, j).
Proof.
  intros Hi Hj. unfold pixelOf, PointXY. cbn [X Y].
  rewrite !int_of_float64_of_int64 by assumption. reflexivity.
Qed.

Lemma fmap_list_bind {A B C : Type} (g : B -> C) (f : A -> list B) (l : list A) :
  g <$> (l ≫= f) = l ≫= (fun a => g <$> f a).
Proof.
  induction l as [|a l IH]; [reflexivity|].
  rewrite !bind_cons, fmap_app, IH. reflexivity.
Qed.

Lemma NoDup_bind_inj {A B : Type} (f : A -> list B) (g : B -> A) (l : list A) :
  NoDup l -> (forall a, a ∈ l -> NoDup (f a)) ->
  (forall a b, a ∈ l -> b ∈ f a -> g b = a) ->
  NoDup (l ≫= f).
Proof.
  intros Hl Hf Hg. apply NoDup_bind; try assumption.
  intros a1 a2 b H1 H2 Hb1 Hb2.
  rewrite <- (Hg a1 b H1 Hb1). apply Hg; assumption.
Qed.

(** X2. [ForceRender] spawns one worker per pixel and no other: the points
    are exactly the [(i, j)] with [0 <= i < int(Width)] and
    [0 <= j < int(Height)], each once, [int(Width) * int(Height)] of them
    (none when a dimension is zero, negative or not a number), and
    [DrawPoint] takes each point back to its pixel [(i, j)]. *)
Theorem ForceRender_is_the_grid (mi : MandelbrotImage) :
  Go.int_of_float64 (imgWidth mi) <= 2 ^ 53 ->
  Go.int_of_float64 (imgHeight mi) <= 2 ^ 53 ->
  let w := Go.int_of_float64 (imgWidth mi) in
  let h := Go.int_of_float64 (imgHeight mi) in
  Z.of_nat (length (ForceRender mi)) = Z.max 0 w * Z.max 0 h /\
  NoDup (ForceRender mi) /\
  NoDup (pixelOf <$> ForceRender mi) /\
  (forall pt, pt ∈ ForceRender mi -> inGrid w h pt) /\
  (forall i j, 0 <= i < w -> 0 <= j < h ->
     exists pt, pt ∈ ForceRender mi /\ pixelOf pt = (i, j)).
Proof.
  intros Hw Hh w h.
  assert (Hpix : forall pt, pt ∈ ForceRender mi ->
                   exists i j, 0 <= i < w /\ 0 <= j < h /\
                     pt = PointXY (Go.float64_of_int64 i) (Go.float64_of_int64 j) /\
                     pixelOf pt = (i, j)).
  { intros pt (i & j & Hi & Hj & ->)%elem_of_ForceRender.
    exists i, j. repeat split; try lia.
    apply pixelOf_PointXY; lia. }
  assert (Hnd : NoDup (pixelOf <$> ForceRender mi)).
  { unfold ForceRender. rewrite fmap_list_bind.
    apply (NoDup_bind_inj _ fst).
    - apply NoDup_seqZ.
    - intros i Hi%elem_of_seqZ. rewrite fmap_list_bind.
      apply (NoDup_bind_inj _ snd).
      + apply NoDup_seqZ.
      + intros j _. apply NoDup_singleton.
      + intros j b Hj%elem_of_seqZ Hb.
        apply list_elem_of_singleton in Hb. subst b.
        rewrite pixelOf_PointXY by lia. reflexivity.
    - intros i b Hi%elem_of_seqZ Hb. rewrite fmap_list_bind in Hb.
      apply list_elem_of_bind in Hb as (j & Hb & Hj%elem_of_seqZ).
      apply list_elem_of_singleton in Hb. subst b.
      rewrite pixelOf_PointXY by lia. reflexivity. }
  split.
  { rewrite length_ForceRender. fold w. fold h. lia. }
  split; [eapply NoDup_fmap_1; exact Hnd|].
  split; [exact Hnd|].
  split.
  - intros pt (i & j & Hi & Hj & _ & Hp)%Hpix.
    unfold inGrid. rewrite Hp. cbn. lia.
  - intros i j Hi Hj.
    exists (PointXY (Go.float64_of_int64 i) (Go.float64_of_int64 j)). split.
    + apply elem_of_ForceRender. exists i, j. auto.
    + apply pixelOf_PointXY; lia.
Qed.

Lemma ForceRender_is_the_grid_witness :
  Z.of_nat (length (ForceRender (freshImage 800 800))) = 640000 /\
  NoDup (ForceRender (freshImage 800 800)).
Proof.
  destruct (ForceRender_is_the_grid (freshImage 800 800)) as (HL & HN & _).
  - vm_compute. discriminate.
  - vm_compute. discriminate.
  - split; [|exact HN]. rewrite HL. vm_compute. reflexivity.
Defined.

(** ** imageWriter on points of the grid *)

Section ImageWriter.

Local Unset Default Proof Using.

Variables w h : Z.
Hypothesis Hw : 0 < w.
Hypothesis Hh : 0 <= h.
Hypothesis Hsize : w * h * 4 <= Go.int64_max.

Implicit Types (mi : MandelbrotImage) (pt : Point) (jobs : list Point).

(** An image [w] by [h]: what [DrawPoint] reads of it. *)
Let sized mi : Prop :=
  Go.int_of_float64 (imgWidth mi) = w /\
  Z.of_nat (length (Pixels mi)) = w * h * 4.

Lemma offsetOf_inGrid pt :
  inGrid w h pt ->
  0 <= offsetOf w (pixelOf pt) /\ offsetOf w (pixelOf pt) + 3 < w * h * 4.
Proof. unfold inGrid, offsetOf. intros [Hx Hy]. nia. Qed.

Lemma offsetOf_inj (p q : Z * Z) :
  0 <= p.1 < w -> 0 <= q.1 < w ->
  - 3 <= offsetOf w p - offsetOf w q <= 3 -> p = q.
Proof.
  destruct p as [x y], q as [x' y']. unfold offsetOf. cbn [fst snd].
  intros Hx Hx' Hd.
  assert (y = y') by nia. subst y'. assert (x = x') by lia. congruence.
Qed.

Lemma DrawPoint_inGrid mi pt :
  sized mi -> inGrid w h pt ->
  DrawPoint mi pt
  = Some (mkImage (imgWidth mi) (imgHeight mi)
            (write4 (Pixels mi) (Z.to_nat (offsetOf w (pixelOf pt)))
               (Red pt) (Green pt) (Blue pt) 255)).
Proof.
  intros [HW HL] Hin. destruct (offsetOf_inGrid pt Hin) as [H0 H3].
  destruct Hin as [Hx Hy]. unfold pixelOf, offsetOf in *. cbn [fst snd] in *.
  pose proof (DrawPoint_at mi pt) as HD. cbv zeta in HD. rewrite HW in HD.
  apply HD; lia.
Qed.

Lemma lookup_write4_byteOf mi pt (k : nat) :
  sized mi -> inGrid w h pt ->
  write4 (Pixels mi) (Z.to_nat (offsetOf w (pixelOf pt)))
    (Red pt) (Green pt) (Blue pt) 255 !! k
  = match byteOf w pt (Z.of_nat k) with
    | Some b => Some b
    | None => Pixels mi !! k
    end.
Proof.
  intros [HW HL] Hin. destruct (offsetOf_inGrid pt Hin) as [H0 H3].
  unfold byteOf. set (off := offsetOf w (pixelOf pt)) in *.
  destruct (lookup_write4 (Pixels mi) (Z.to_nat off) (Red pt) (Green pt) (Blue pt) 255)
    as (E0 & E1 & E2 & E3); [lia|].
  destruct (Z.eqb_spec (Z.of_nat k) off) as [E|N0].
  { replace k with (Z.to_nat off) by lia. exact E0. }
  destruct (Z.eqb_spec (Z.of_nat k) (off + 1)) as [E|N1].
  { replace k with (Z.to_nat off + 1)%nat by lia. exact E1. }
  destruct (Z.eqb_spec (Z.of_nat k) (off + 2)) as [E|N2].
  { replace k with (Z.to_nat off + 2)%nat by lia. exact E2. }
  destruct (Z.eqb_spec (Z.of_nat k) (off + 3)) as [E|N3].
  { replace k with (Z.to_nat off + 3)%nat by lia. exact E3. }
  apply lookup_write4_ne. lia.
Qed.

Lemma byteOf_covers pt (k b : Z) :
  byteOf w pt k = Some b ->
  offsetOf w (pixelOf pt) <= k <= offsetOf w (pixelOf pt) + 3 /\
  (b = Red pt \/ b = Green pt \/ b = Blue pt \/ b = 255).
Proof.
  unfold byteOf.
  repeat match goal with
         | |- context [Z.eqb ?a ?b] => destruct (Z.eqb_spec a b)
         end; intros [= <-]; split; auto; lia.
Qed.

Lemma byteOf_same_pixel pt pt' (k b b' : Z) :
  inGrid w h pt -> inGrid w h pt' ->
  byteOf w pt k = Some b -> byteOf w pt' k = Some b' ->
  pixelOf pt = pixelOf pt'.
Proof.
  intros [Hx _] [Hx' _] [Hk _]%byteOf_covers [Hk' _]%byteOf_covers.
  apply offsetOf_inj; lia.
Qed.

(** [imageWriter] as a whole: no panic, the image keeps its shape, and each
    byte is the one written last. *)
Lemma imageWriter_run jobs :
  forall mi,
    sized mi -> Forall (inGrid w h) jobs ->
    exists pixels',
      imageWriter mi jobs = Some (mkImage (imgWidth mi) (imgHeight mi) pixels') /\
      length pixels' = length (Pixels mi) /\
      forall k : nat,
        pixels' !! k = match lastWrite w jobs (Z.of_nat k) with
                       | Some b => Some b
                       | None => Pixels mi !! k
                       end.
Proof.
  induction jobs as [|pt jobs IH]; intros mi Hmi Hall.
  - exists (Pixels mi). destruct mi. repeat split; reflexivity.
  - apply Forall_cons_1 in Hall as [Hpt Hall].
    cbn [imageWriter lastWrite]. rewrite (DrawPoint_inGrid mi pt Hmi Hpt).
    cbn [mbind option_bind].
    set (mi1 := mkImage _ _ _).
    assert (Hmi1 : sized mi1).
    { destruct Hmi as [HW HL]. split; [exact HW|].
      unfold mi1. cbn [Pixels]. rewrite length_write4. exact HL. }
    destruct (IH mi1 Hmi1 Hall) as (pixels' & Hrun & Hlen & Hlook).
    exists pixels'. split; [exact Hrun|]. split.
    + rewrite Hlen. unfold mi1. cbn [Pixels]. apply length_write4.
    + intros k. rewrite Hlook.
      destruct (lastWrite w jobs (Z.of_nat k)); [reflexivity|].
      unfold mi1. cbn [Pixels]. apply lookup_write4_byteOf; assumption.
Qed.

Lemma lastWrite_from jobs (k b : Z) :
  lastWrite w jobs k = Some b -> exists pt, pt ∈ jobs /\ byteOf w pt k = Some b.
Proof.
  induction jobs as [|pt jobs IH]; [discriminate|]. cbn [lastWrite].
  destruct (lastWrite w jobs k) as [b'|].
  - intros [= ->]. destruct (IH eq_refl) as (q & Hq & Hb).
    exists q. split; [right; exact Hq | exact Hb].
  - intros Hb. exists pt. split; [left | exact Hb].
Qed.

(** When every point of [jobs] that covers [k] puts the same byte there,
    that byte is the last one written. *)
Lemma lastWrite_agreed jobs (k b : Z) :
  (exists pt, pt ∈ jobs /\ byteOf w pt k = Some b) ->
  (forall pt b', pt ∈ jobs -> byteOf w pt k = Some b' -> b' = b) ->
  lastWrite w jobs k = Some b.
Proof.
  intros (pt & Hpt & Hb) Hall.
  induction jobs as [|q jobs IH]; [inversion Hpt|]. cbn [lastWrite].
  destruct (lastWrite w jobs k) as [b'|] eqn:El in |- *.
  - apply lastWrite_from in El as (q' & Hq' & Hb').
    f_equal. apply (Hall q'); [right; exact Hq' | exact Hb'].
  - apply elem_of_cons in Hpt as [->|Hpt]; [exact Hb|].
    exfalso. enough (E : lastWrite w jobs k = Some b) by congruence.
    apply IH; [exact Hpt|].
    intros q' b' Hq'. apply Hall. right. exact Hq'.
Qed.

(** Points of different pixels can be received in either order. *)
Lemma lastWrite_Permutation jobs jobs' :
  jobs ≡ₚ jobs' ->
  Forall (inGrid w h) jobs -> NoDup (pixelOf <$> jobs) ->
  forall k, lastWrite w jobs k = lastWrite w jobs' k.
Proof.
  induction 1 as [|pt l l' Hp IH|p q l|l1 l2 l3 H12 IH12 H23 IH23];
    intros Hall Hnd k.
  - reflexivity.
  - apply Forall_cons_1 in Hall as [_ Hall].
    rewrite fmap_cons in Hnd. apply NoDup_cons_1_2 in Hnd.
    cbn [lastWrite]. rewrite (IH Hall Hnd k). reflexivity.
  - cbn [lastWrite]. destruct (lastWrite w l k); [reflexivity|].
    apply Forall_cons_1 in Hall as [Hq Hall]. apply Forall_cons_1 in Hall as [Hp _].
    rewrite !fmap_cons in Hnd. apply NoDup_cons_1_1 in Hnd.
    destruct (byteOf w p k) as [b|] eqn:Ep, (byteOf w q k) as [b'|] eqn:Eq;
      try reflexivity.
    exfalso. apply Hnd. apply elem_of_cons. left.
    eapply byteOf_same_pixel; [exact Hq | exact Hp | exact Eq | exact Ep].
  - rewrite (IH12 Hall Hnd k). apply IH23.
    + rewrite <- H12. exact Hall.
    + rewrite <- H12. exact Hnd.
Qed.

End ImageWriter.

Lemma lastWrite_app (w : Z) (l1 l2 : list Point) (k : Z) :
  lastWrite w (l1 ++ l2) k
  = match lastWrite w l2 k with
    | Some b => Some b
    | None => lastWrite w l1 k
    end.
Proof.
  induction l1 as [|pt l1 IH]; cbn [app lastWrite].
  - destruct (lastWrite w l2 k); reflexivity.
  - rewrite IH. destruct (lastWrite w l2 k); reflexivity.
Qed.

(** X3. Fed any sequence of points whose truncated coordinates lie in the
    grid, [imageWriter] never panics, and the image keeps its width, its
    height and the length of its buffer; if the buffer held bytes and the
    points carry bytes, it still holds bytes. *)
Theorem imageWriter_keeps_the_image_well_formed
    (w h : Z) (mi : MandelbrotImage) (jobs : list Point) :
  0 < w -> 0 <= h -> w * h * 4 <= Go.int64_max ->
  Go.int_of_float64 (imgWidth mi) = w ->
  Z.of_nat (length (Pixels mi)) = w * h * 4 ->
  Forall (inGrid w h) jobs ->
  exists mi',
    imageWriter mi jobs = Some mi' /\
    imgWidth mi' = imgWidth mi /\ imgHeight mi' = imgHeight mi /\
    length (Pixels mi') = length (Pixels mi) /\
    (Forall isByte (Pixels mi) ->
     Forall (fun pt => isByte (Red pt) /\ isByte (Green pt) /\ isByte (Blue pt)) jobs ->
     Forall isByte (Pixels mi')).
Proof.
  intros Hw Hh Hsize HW HL Hjobs.
  destruct (imageWriter_run w h Hw Hh Hsize jobs mi (conj HW HL) Hjobs)
    as (pixels' & Hrun & Hlen & Hlook).
  eexists. split; [exact Hrun|]. cbn [imgWidth imgHeight Pixels].
  split; [reflexivity|]. split; [reflexivity|]. split; [exact Hlen|].
  intros Hold Hnew. apply Forall_lookup. intros k b Hk.
  rewrite Hlook in Hk.
  destruct (lastWrite w jobs (Z.of_nat k)) as [b'|] eqn:El.
  - injection Hk as ->.
    apply lastWrite_from in El as (pt & Hpt & Hb).
    apply byteOf_covers in Hb as [_ Hb].
    rewrite Forall_forall in Hnew. destruct (Hnew pt Hpt) as (Hr & Hg & Hbl).
    destruct Hb as [->|[->|[->| ->]]]; try assumption. unfold isByte. lia.
  - rewrite Forall_lookup in Hold. exact (Hold k b Hk).
Qed.

Lemma imageWriter_keeps_the_image_well_formed_witness :
  exists mi',
    imageWriter (freshImage 2 2) [mkPoint 1 1 10 20 30; mkPoint 0.5 1.5 1 2 3]
    = Some mi' /\
    length (Pixels mi') = 16%nat.
Proof.
  assert (Hsize : 2 * 2 * 4 <= Go.int64_max) by (unfold Go.int64_max; lia).
  assert (HW : Go.int_of_float64 (imgWidth (freshImage 2 2)) = 2)
    by (vm_compute; reflexivity).
  assert (HL : Z.of_nat (length (Pixels (freshImage 2 2))) = 2 * 2 * 4)
    by (vm_compute; reflexivity).
  assert (Hjobs : Forall (inGrid 2 2)
                    [mkPoint 1 1 10 20 30; mkPoint 0.5 1.5 1 2 3]).
  { repeat apply Forall_cons_2; try apply Forall_nil_2;
      vm_compute; repeat split; discriminate. }
  destruct (imageWriter_keeps_the_image_well_formed 2 2 (freshImage 2 2) _
              ltac:(lia) ltac:(lia) Hsize HW HL Hjobs)
    as (mi' & Hrun & _ & _ & Hlen & _).
  exists mi'. split; [exact Hrun|]. rewrite Hlen. vm_compute. reflexivity.
Defined.

(** X4. The buffer [imageWriter] leaves holds, for each pixel, the colour
    of the last point received for it, with alpha 255; a pixel for which no
    point was received keeps its four bytes. *)
Theorem imageWriter_last_point_wins
    (w h : Z) (mi : MandelbrotImage) (jobs : list Point) :
  0 < w -> 0 <= h -> w * h * 4 <= Go.int64_max ->
  Go.int_of_float64 (imgWidth mi) = w ->
  Z.of_nat (length (Pixels mi)) = w * h * 4 ->
  Forall (inGrid w h) jobs ->
  exists mi',
    imageWriter mi jobs = Some mi' /\
    (forall before pt after,
       jobs = before ++ pt :: after ->
       Forall (fun q => pixelOf q <> pixelOf pt) after ->
       let off := Z.to_nat (offsetOf w (pixelOf pt)) in
       Pixels mi' !! off = Some (Red pt) /\
       Pixels mi' !! (off + 1)%nat = Some (Green pt) /\
       Pixels mi' !! (off + 2)%nat = Some (Blue pt) /\
       Pixels mi' !! (off + 3)%nat = Some 255) /\
    (forall x y c,
       0 <= x < w -> 0 <= y < h -> 0 <= c < 4 ->
       Forall (fun q => pixelOf q <> (x, y)) jobs ->
       Pixels mi' !! Z.to_nat (offsetOf w (x, y) + c)
       = Pixels mi !! Z.to_nat (offsetOf w (x, y) + c)).
Proof.
  intros Hw Hh Hsize HW HL Hjobs.
  destruct (imageWriter_run w h Hw Hh Hsize jobs mi (conj HW HL) Hjobs)
    as (pixels' & Hrun & Hlen & Hlook).
  eexists. split; [exact Hrun|]. cbn [Pixels]. split.
  - intros before pt after -> Hafter.
    set (off := Z.to_nat (offsetOf w (pixelOf pt))).
    apply Forall_app in Hjobs as [_ Hjobs].
    apply Forall_cons_1 in Hjobs as [Hpt Hafter_grid].
    destruct (offsetOf_inGrid w h Hw Hh pt Hpt) as [H0 H3].
    assert (Hcover : forall c, 0 <= c < 4 ->
              lastWrite w (before ++ pt :: after) (offsetOf w (pixelOf pt) + c)
              = byteOf w pt (offsetOf w (pixelOf pt) + c)).
    { intros c Hc.
      assert (Hpb : exists b0, byteOf w pt (offsetOf w (pixelOf pt) + c) = Some b0).
      { unfold byteOf.
        repeat match goal with
               | |- context [Z.eqb ?a ?b] => destruct (Z.eqb_spec a b)
               end; eauto; lia. }
      destruct Hpb as (b0 & Hb0).
      rewrite lastWrite_app. cbn [lastWrite].
      destruct (lastWrite w after (offsetOf w (pixelOf pt) + c)) as [b|] eqn:El;
        [|rewrite Hb0; reflexivity].
      exfalso. apply lastWrite_from in El as (q & Hq & Hb).
      rewrite Forall_forall in Hafter, Hafter_grid.
      apply (Hafter q Hq).
      eapply (byteOf_same_pixel w h Hw q pt); eauto. }
    assert (Hb : forall c, 0 <= c < 4 ->
              pixels' !! (off + Z.to_nat c)%nat
              = byteOf w pt (offsetOf w (pixelOf pt) + c)).
    { intros c Hc. rewrite Hlook.
      replace (Z.of_nat (off + Z.to_nat c)) with (offsetOf w (pixelOf pt) + c)
        by (unfold off; lia).
      rewrite (Hcover c Hc).
      destruct (byteOf w pt (offsetOf w (pixelOf pt) + c)) eqn:E; [reflexivity|].
      exfalso. revert E. unfold byteOf.
      repeat match goal with
             | |- context [Z.eqb ?a ?b] => destruct (Z.eqb_spec a b)
             end; try discriminate; lia. }
    pose proof (Hb 0 ltac:(lia)) as B0. pose proof (Hb 1 ltac:(lia)) as B1.
    pose proof (Hb 2 ltac:(lia)) as B2. pose proof (Hb 3 ltac:(lia)) as B3.
    change (Z.to_nat 0) with 0%nat in B0. rewrite Nat.add_0_r in B0.
    change (Z.to_nat 1) with 1%nat in B1. change (Z.to_nat 2) with 2%nat in B2.
    change (Z.to_nat 3) with 3%nat in B3.
    rewrite B0, B1, B2, B3. unfold byteOf.
    rewrite Z.add_0_r, Z.eqb_refl.
    repeat match goal with
           | |- context [Z.eqb ?a ?b] =>
               destruct (Z.eqb_spec a b); try lia
           end.
    repeat split; reflexivity.
  - intros x y c Hx Hy Hc Hnone. rewrite Hlook.
    destruct (lastWrite w jobs (Z.of_nat (Z.to_nat (offsetOf w (x, y) + c))))
      as [b|] eqn:El; [|reflexivity].
    exfalso. apply lastWrite_from in El as (q & Hq & Hb).
    rewrite Forall_forall in Hnone, Hjobs.
    apply (Hnone q Hq).
    apply byteOf_covers in Hb as [Hk _].
    destruct (Hjobs q Hq) as [Hqx Hqy].
    assert (0 <= offsetOf w (x, y)) by (unfold offsetOf; cbn; nia).
    apply (offsetOf_inj w Hw); cbn [fst snd]; lia.
Qed.

Lemma imageWriter_last_point_wins_witness :
  exists mi',
    imageWriter (freshImage 2 2)
      [mkPoint 1 1 10 20 30; mkPoint 0 0 4 5 6; mkPoint 1 1 7 8 9] = Some mi' /\
    Pixels mi' !! 12%nat = Some 7 /\ Pixels mi' !! 15%nat = Some 255 /\
    Pixels mi' !! 4%nat = Some 0.
Proof.
  assert (Hsize : 2 * 2 * 4 <= Go.int64_max) by (unfold Go.int64_max; lia).
  assert (HW : Go.int_of_float64 (imgWidth (freshImage 2 2)) = 2)
    by (vm_compute; reflexivity).
  assert (HL : Z.of_nat (length (Pixels (freshImage 2 2))) = 2 * 2 * 4)
    by (vm_compute; reflexivity).
  assert (Hjobs : Forall (inGrid 2 2)
                    [mkPoint 1 1 10 20 30; mkPoint 0 0 4 5 6; mkPoint 1 1 7 8 9]).
  { repeat apply Forall_cons_2; try apply Forall_nil_2;
      vm_compute; repeat split; discriminate. }
  destruct (imageWriter_last_point_wins 2 2 (freshImage 2 2) _
              ltac:(lia) ltac:(lia) Hsize HW HL Hjobs)
    as (mi' & Hrun & Hlast & Hkeep).
  exists mi'. split; [exact Hrun|].
  destruct (Hlast [mkPoint 1 1 10 20 30; mkPoint 0 0 4 5 6] (mkPoint 1 1 7 8 9) []
              eq_refl (Forall_nil_2 _)) as (E0 & _ & _ & E3).
  split; [exact E0|]. split; [exact E3|].
  assert (Hnone : Forall (fun q => pixelOf q <> (1, 0))
                    [mkPoint 1 1 10 20 30; mkPoint 0 0 4 5 6; mkPoint 1 1 7 8 9]).
  { repeat apply Forall_cons_2; try apply Forall_nil_2; vm_compute; discriminate. }
  pose proof (Hkeep 1 0 0 ltac:(lia) ltac:(lia) ltac:(lia) Hnone) as E4.
  change (Z.to_nat (offsetOf 2 (1, 0) + 0)) with 4%nat in E4.
  rewrite E4. vm_compute. reflexivity.
Defined.

(** X5. Points of pairwise different pixels can reach [imageWriter] in any
    order: the image it leaves is the same. *)
Theorem imageWriter_order_of_distinct_pixels_is_irrelevant
    (w h : Z) (mi : MandelbrotImage) (jobs jobs' : list Point) :
  0 < w -> 0 <= h -> w * h * 4 <= Go.int64_max ->
  Go.int_of_float64 (imgWidth mi) = w ->
  Z.of_nat (length (Pixels mi)) = w * h * 4 ->
  Forall (inGrid w h) jobs ->
  NoDup (pixelOf <$> jobs) ->
  jobs ≡ₚ jobs' ->
  imageWriter mi jobs = imageWriter mi jobs' /\ imageWriter mi jobs <> None.
Proof.
  intros Hw Hh Hsize HW HL Hjobs Hnd Hperm.
  assert (Hjobs' : Forall (inGrid w h) jobs') by (rewrite <- Hperm; exact Hjobs).
  destruct (imageWriter_run w h Hw Hh Hsize jobs mi (conj HW HL) Hjobs)
    as (p1 & Hrun1 & Hlen1 & Hlook1).
  destruct (imageWriter_run w h Hw Hh Hsize jobs' mi (conj HW HL) Hjobs')
    as (p2 & Hrun2 & Hlen2 & Hlook2).
  rewrite Hrun1, Hrun2. split; [|discriminate].
  do 2 f_equal. apply list_eq. intros k.
  rewrite Hlook1, Hlook2.
  rewrite (lastWrite_Permutation w h Hw jobs jobs' Hperm Hjobs Hnd).
  reflexivity.
Qed.

Lemma imageWriter_order_of_distinct_pixels_is_irrelevant_witness :
  imageWriter (freshImage 2 2) [mkPoint 1 1 10 20 30; mkPoint 0 1 4 5 6]
  = imageWriter (freshImage 2 2) [mkPoint 0 1 4 5 6; mkPoint 1 1 10 20 30].
Proof.
  assert (Hsize : 2 * 2 * 4 <= Go.int64_max) by (unfold Go.int64_max; lia).
  assert (HW : Go.int_of_float64 (imgWidth (freshImage 2 2)) = 2)
    by (vm_compute; reflexivity).
  assert (HL : Z.of_nat (length (Pixels (freshImage 2 2))) = 2 * 2 * 4)
    by (vm_compute; reflexivity).
  assert (Hjobs : Forall (inGrid 2 2) [mkPoint 1 1 10 20 30; mkPoint 0 1 4 5 6]).
  { repeat apply Forall_cons_2; try apply Forall_nil_2;
      vm_compute; repeat split; discriminate. }
  assert (Hnd : NoDup (pixelOf <$> [mkPoint 1 1 10 20 30; mkPoint 0 1 4 5 6])).
  { change (NoDup [pixelOf (mkPoint 1 1 10 20 30); pixelOf (mkPoint 0 1 4 5 6)]).
    replace (pixelOf (mkPoint 1 1 10 20 30)) with (1, 1) by (vm_compute; reflexivity).
    replace (pixelOf (mkPoint 0 1 4 5 6)) with (0, 1) by (vm_compute; reflexivity).
    apply NoDup_cons_2; [|apply NoDup_singleton].
    intros H. apply list_elem_of_singleton in H. discriminate H. }
  exact (proj1 (imageWriter_order_of_distinct_pixels_is_irrelevant 2 2
                  (freshImage 2 2) _ _ ltac:(lia) ltac:(lia) Hsize HW HL Hjobs Hnd
                  (perm_swap _ _ _))).
Defined.

(** ** One render pass *)

Lemma pixelOf_worker (pt : Point) (settings : Settings) :
  pixelOf (mandelbrotWorker pt settings) = pixelOf pt.
Proof. reflexivity. Qed.

Lemma frame_offset (w k : Z) :
  0 < w -> offsetOf w ((k / 4) mod w, (k / 4) / w) = 4 * (k / 4).
Proof.
  intros Hw. unfold offsetOf. cbn [fst snd].
  pose proof (Z.div_mod (k / 4) w ltac:(lia)). nia.
Qed.

Lemma byteOf_frameByte (settings : Settings) (w k : Z) :
  0 < w -> 0 <= (k / 4) mod w < 2 ^ 53 -> 0 <= (k / 4) / w < 2 ^ 53 ->
  byteOf w (mandelbrotWorker
              (PointXY (Go.float64_of_int64 ((k / 4) mod w))
                       (Go.float64_of_int64 ((k / 4) / w))) settings) k
  = Some (frameByte settings w k).
Proof.
  intros Hw Hx Hy. unfold byteOf, frameByte.
  rewrite pixelOf_worker, pixelOf_PointXY, frame_offset by assumption.
  cbv zeta.
  set (pt := mandelbrotWorker _ _).
  pose proof (Z.div_mod k 4 ltac:(lia)) as Hk.
  pose proof (Z.mod_pos_bound k 4 ltac:(lia)) as Hm.
  repeat match goal with
         | |- context [Z.eqb ?a ?b] => destruct (Z.eqb_spec a b)
         end; try reflexivity; lia.
Qed.

(** X6. One render pass over an image of integer size [w] by [h] whose
    workers all read the same configuration: in whatever order the points
    of the workers spawned by [ForceRender] reach [imageWriter], the pass
    does not panic and leaves exactly the frame of that configuration,
    each pixel [(x, y)] holding at offset [y*w*4 + x*4] the colour
    [mandelbrotWorker] computes for it, with alpha 255.  Nothing of the
    previous contents of the buffer remains. *)
Theorem render_pass_draws_the_frame
    (w h : Z) (mi : MandelbrotImage) (settings : Settings) (order : list Point) :
  1 <= w -> 1 <= h -> 4 * w * h < 2 ^ 53 ->
  imgWidth mi = Go.float64_of_int64 w ->
  imgHeight mi = Go.float64_of_int64 h ->
  Z.of_nat (length (Pixels mi)) = 4 * w * h ->
  order ≡ₚ ForceRender mi ->
  renderPass mi settings order
  = Some (mkImage (imgWidth mi) (imgHeight mi)
            (frameByte settings w <$> seqZ 0 (4 * w * h))).
Proof.
  intros Hw Hh Hb HW HH HL Hperm.
  assert (HiW : Go.int_of_float64 (imgWidth mi) = w)
    by (rewrite HW; apply int_of_float64_of_int64; nia).
  assert (HiH : Go.int_of_float64 (imgHeight mi) = h)
    by (rewrite HH; apply int_of_float64_of_int64; nia).
  assert (Hin : forall pt, pt ∈ order <->
            exists i j, 0 <= i < w /\ 0 <= j < h /\
              pt = PointXY (Go.float64_of_int64 i) (Go.float64_of_int64 j)).
  { intros pt. rewrite Hperm, elem_of_ForceRender, HiW, HiH. reflexivity. }
  set (jobs := (fun pt => mandelbrotWorker pt settings) <$> order).
  assert (Hjobs : Forall (inGrid w h) jobs).
  { apply Forall_forall. intros q Hq.
    apply list_elem_of_fmap in Hq as (pt & -> & Hpt).
    apply Hin in Hpt as (i & j & Hi & Hj & ->).
    unfold inGrid. rewrite pixelOf_worker, pixelOf_PointXY by nia.
    cbn [fst snd]. lia. }
  assert (Hsz : w * h * 4 <= Go.int64_max) by (unfold Go.int64_max; lia).
  assert (HL' : Z.of_nat (length (Pixels mi)) = w * h * 4) by lia.
  destruct (imageWriter_run w h ltac:(lia) ltac:(lia) Hsz jobs mi (conj HiW HL') Hjobs)
    as (pixels' & Hrun & Hlen & Hlook).
  unfold renderPass. fold jobs. rewrite Hrun. do 2 f_equal.
  apply list_eq. intros k. rewrite list_lookup_fmap.
  destruct (Z_lt_le_dec (Z.of_nat k) (4 * w * h)) as [Hlt|Hge].
  - rewrite lookup_seqZ_lt by assumption. cbn [fmap option_fmap option_map].
    rewrite Z.add_0_l, Hlook.
    set (K := Z.of_nat k) in *.
    assert (Hp : 0 <= K / 4 < w * h) by (Z.div_mod_to_equations; lia).
    assert (Hx : 0 <= (K / 4) mod w < w) by (apply Z.mod_pos_bound; lia).
    assert (Hy : 0 <= (K / 4) / w < h).
    { split; [apply Z.div_pos; lia|]. apply Z.div_lt_upper_bound; lia. }
    rewrite (lastWrite_agreed w jobs K (frameByte settings w K)); [reflexivity| |].
    + eexists. split; [|apply byteOf_frameByte; nia].
      unfold jobs.
      apply (list_elem_of_fmap_2 (fun pt => mandelbrotWorker pt settings)), Hin.
      eauto.
    + intros q b' Hq Hb'.
      pose proof Hq as Hq'.
      apply list_elem_of_fmap in Hq' as (pt & -> & Hpt).
      apply Hin in Hpt as (i & j & Hi & Hj & ->).
      pose proof (byteOf_frameByte settings w K ltac:(lia) ltac:(nia) ltac:(nia)) as Hf.
      assert (Hsame : (i, j) = ((K / 4) mod w, (K / 4) / w)).
      { rewrite <- (pixelOf_PointXY i j) by nia.
        rewrite <- (pixelOf_PointXY ((K / 4) mod w) ((K / 4) / w)) by nia.
        rewrite <- (pixelOf_worker (PointXY (Go.float64_of_int64 i) _) settings).
        rewrite <- (pixelOf_worker (PointXY (Go.float64_of_int64 (_ mod _)) _) settings).
        eapply (byteOf_same_pixel w h ltac:(lia)); [| |exact Hb'|exact Hf].
        - rewrite Forall_forall in Hjobs. apply Hjobs, Hq.
        - unfold inGrid. rewrite pixelOf_worker, pixelOf_PointXY by nia.
          cbn [fst snd]. lia. }
      injection Hsame as -> ->. congruence.
  - rewrite lookup_seqZ_ge by assumption. cbn.
    apply lookup_ge_None_2. lia.
Qed.

Lemma render_pass_draws_the_frame_witness :
  renderPass (freshImage 800 800) settings0
    (reverse (spawned (loopEntry (freshImage 800 800))))
  = Some (mkImage 800 800 (frameByte settings0 800 <$> seqZ 0 2560000)).
Proof.
  assert (HL : Z.of_nat (length (Pixels (freshImage 800 800))) = 4 * 800 * 800)
    by (vm_compute; reflexivity).
  exact (render_pass_draws_the_frame 800 800 (freshImage 800 800) settings0
           (reverse (spawned (loopEntry (freshImage 800 800))))
           ltac:(lia) ltac:(lia) ltac:(lia) eq_refl eq_refl HL
           (reverse_Permutation _)).
Defined.

(** ** The worker at the ends of the iteration budget *)

Lemma float64_of_int64_negative (z : Z) :
  Go.int64_min <= z < 0 ->
  exists m e, Prim2SF (Go.float64_of_int64 z) = S754_finite true m e.
Proof.
  intros Hz. unfold Go.float64_of_int64.
  destruct (Z.eqb_spec z Go.int64_min) as [_|Hne].
  - eexists _, _. vm_compute. reflexivity.
  - destruct (Z.ltb_spec z 0); [|lia].
    destruct (float64_of_int64_finite (- z)) as (m & e & HF).
    { unfold Go.int64_min, Go.int64_max in *. lia. }
    rewrite float64_of_int64_pos in HF by (unfold Go.int64_min in *; lia).
    exists m, e. rewrite FloatAxioms.opp_spec, HF. reflexivity.
Qed.

(** The level [mapToRange(float64(0), 0, float64(MaxIterations), 0, 255)]
    of a pixel that completed no update: exactly 0 when [MaxIterations] is
    not zero, whatever its sign. *)
Lemma level_of_no_update (maxIterations : Z) :
  Go.int64_min <= maxIterations <= Go.int64_max -> maxIterations <> 0 ->
  mapToRange (Go.float64_of_int64 0) 0 (Go.float64_of_int64 maxIterations) 0 255
  = 0%float.
Proof.
  intros HM Hne.
  assert (HF : exists s m e,
             Prim2SF (Go.float64_of_int64 maxIterations) = S754_finite s m e).
  { destruct (Z_lt_le_dec maxIterations 0).
    - destruct (float64_of_int64_negative maxIterations) as (m & e & H); [lia|]. eauto.
    - destruct (float64_of_int64_finite maxIterations) as (m & e & H); [lia|]. eauto. }
  destruct HF as (s & m & e & HF).
  set (F := Go.float64_of_int64 maxIterations) in *.
  change (Go.float64_of_int64 0) with 0%float.
  unfold mapToRange.
  change ((0 - 0) * (255 - 0))%float with 0%float.
  replace (F - 0)%float with F
    by (apply Prim2SF_inj; rewrite FloatAxioms.sub_spec, HF; reflexivity).
  assert (Hq : (0 / F)%float = if s then (-0)%float else 0%float).
  { apply Prim2SF_inj. rewrite FloatAxioms.div_spec, HF. destruct s; reflexivity. }
  rewrite Hq. destruct s; reflexivity.
Qed.

(** With [MaxIterations = 0] the same level is 0/0, not a number, and not
    below 20. *)
Lemma level_of_no_budget :
  let level := mapToRange (Go.float64_of_int64 0) 0 (Go.float64_of_int64 0) 0 255 in
  is_nan level = true /\ (level <? 20)%float = false.
Proof. vm_compute. split; reflexivity. Qed.

(** X7. A pixel that completes no update, because its first update already
    has [x + y > 2] or because [MaxIterations <= 0] and the loop body never
    runs, is painted black, for every [int64] value of [MaxIterations].
    When [MaxIterations] is not zero, negative values included, its level
    [mapToRange(0, 0, MaxIterations, 0, 255)] is exactly 0, below the floor
    of 20.  When [MaxIterations] is zero the level is 0/0, not a number and
    not below 20, and the pixel is black because [iters == MaxIterations]. *)
Theorem no_completed_update_paints_black (pt : Point) (settings : Settings) :
  Go.int64_min <= MaxIterations settings <= Go.int64_max ->
  MaxIterations settings <= 0 \/ workerIters pt settings = 0 ->
  let iters := workerIters pt settings in
  let level := mapToRange (Go.float64_of_int64 iters) 0
                 (Go.float64_of_int64 (MaxIterations settings)) 0 255 in
  iters = 0 /\
  (MaxIterations settings <> 0 ->
   level = 0%float /\ (level <? 20)%float = true) /\
  (MaxIterations settings = 0 ->
   is_nan level = true /\ (level <? 20)%float = false /\
   iters = MaxIterations settings) /\
  workerLevel iters (MaxIterations settings) = 0%float /\
  Red (mandelbrotWorker pt settings) = 0 /\
  Green (mandelbrotWorker pt settings) = 0 /\
  Blue (mandelbrotWorker pt settings) = 0.
Proof.
  intros HM Hcase iters level.
  assert (Hit : iters = 0).
  { destruct Hcase as [Hle|Hit]; [|exact Hit].
    unfold iters, workerIters. destruct (workerStart pt settings) as [x0 y0].
    replace (Z.to_nat (MaxIterations settings)) with O by lia. reflexivity. }
  assert (Hnz : MaxIterations settings <> 0 ->
                level = 0%float /\ (level <? 20)%float = true).
  { intros Hne. unfold level. rewrite Hit, level_of_no_update by assumption.
    split; reflexivity. }
  assert (Hz : MaxIterations settings = 0 ->
               is_nan level = true /\ (level <? 20)%float = false /\
               iters = MaxIterations settings).
  { intros H0. unfold level. rewrite Hit, H0.
    destruct level_of_no_budget as [Hn Hl]. auto. }
  assert (Hlevel : workerLevel iters (MaxIterations settings) = 0%float).
  { unfold workerLevel. fold level.
    destruct (Z.eqb_spec iters (MaxIterations settings)) as [|Hne]; [reflexivity|].
    destruct (Hnz ltac:(lia)) as [_ ->]. reflexivity. }
  split; [exact Hit|]. split; [exact Hnz|]. split; [exact Hz|].
  split; [exact Hlevel|].
  unfold mandelbrotWorker. cbv zeta. fold iters. rewrite Hlevel.
  exact channels_of_zero.
Qed.

Lemma no_completed_update_paints_black_witness :
  let dimmed := settings (pollEvents (loopEntry (freshImage 2 2))
                            (replicate 40 (KeyboardEvent K_MINUS))) in
  let darker := settings (pollEvents (loopEntry (freshImage 2 2))
                            (replicate 41 (KeyboardEvent K_MINUS))) in
  MaxIterations dimmed = 0 /\
  Red (mandelbrotWorker (PointXY 360 440) dimmed) = 0 /\
  Green (mandelbrotWorker (PointXY 360 440) dimmed) = 0 /\
  Blue (mandelbrotWorker (PointXY 360 440) dimmed) = 0 /\
  MaxIterations darker = -5 /\
  mapToRange (Go.float64_of_int64 (workerIters (PointXY 360 440) darker)) 0
    (Go.float64_of_int64 (MaxIterations darker)) 0 255 = 0%float /\
  Blue (mandelbrotWorker (PointXY 360 440) darker) = 0.
Proof.
  intros dimmed darker.
  assert (HM : MaxIterations dimmed = 0) by (vm_compute; reflexivity).
  assert (HM' : MaxIterations darker = -5) by (vm_compute; reflexivity).
  assert (Hr : Go.int64_min <= MaxIterations dimmed <= Go.int64_max)
    by (rewrite HM; unfold Go.int64_min, Go.int64_max; lia).
  assert (Hr' : Go.int64_min <= MaxIterations darker <= Go.int64_max)
    by (rewrite HM'; unfold Go.int64_min, Go.int64_max; lia).
  assert (Hc : MaxIterations dimmed <= 0 \/ workerIters (PointXY 360 440) dimmed = 0)
    by (left; rewrite HM; lia).
  assert (Hc' : MaxIterations darker <= 0 \/ workerIters (PointXY 360 440) darker = 0)
    by (left; rewrite HM'; lia).
  destruct (no_completed_update_paints_black (PointXY 360 440) dimmed Hr Hc)
    as (_ & _ & _ & _ & HR & HG & HB).
  destruct (no_completed_update_paints_black (PointXY 360 440) darker Hr' Hc')
    as (_ & Hnz & _ & _ & _ & _ & HB').
  destruct (Hnz ltac:(lia)) as [Hl _].
  repeat (split; [assumption|]). assumption.
Defined.

Lemma int64_succ (iters : Z) :
  0 <= iters < Go.int64_max -> Go.int64_add iters 1 = iters + 1.
Proof.
  intros H. apply int64_add_small. unfold Go.int64_min, Go.int64_max in *. lia.
Qed.

Lemma escapeLoop_range (n : nat) :
  forall (x0 y0 x y : float) (iters : Z),
    0 <= iters -> iters + Z.of_nat n <= Go.int64_max ->
    iters <= snd (escapeLoop n x0 y0 x y iters) <= iters + Z.of_nat n.
Proof.
  induction n as [|n IH]; intros x0 y0 x y iters Hi Hmax; cbn [escapeLoop].
  - cbn [snd]. lia.
  - destruct (2 <? _)%float; [cbn [snd]; lia|].
    rewrite int64_succ by lia.
    specialize (IH x0 y0 (x * x - y * y + x0)%float (2 * x * y + y0)%float
                  (iters + 1) ltac:(lia) ltac:(lia)). lia.
Qed.

Lemma escapeLoop_break_is_final (n : nat) :
  forall (m : nat) (x0 y0 x y : float) (iters : Z),
    (n <= m)%nat -> 0 <= iters -> iters + Z.of_nat m <= Go.int64_max ->
    snd (escapeLoop n x0 y0 x y iters) < iters + Z.of_nat n ->
    escapeLoop m x0 y0 x y iters = escapeLoop n x0 y0 x y iters.
Proof.
  induction n as [|n IH]; intros m x0 y0 x y iters Hnm Hi Hmax Hlt.
  - cbn [escapeLoop snd] in Hlt. lia.
  - destruct m as [|m]; [lia|]. cbn [escapeLoop] in *.
    destruct (2 <? _)%float; [reflexivity|].
    rewrite int64_succ in * by lia.
    apply IH; lia.
Qed.

Lemma escapeLoop_longer_counts_on (n : nat) :
  forall (m : nat) (x0 y0 x y : float) (iters : Z),
    (n <= m)%nat -> 0 <= iters -> iters + Z.of_nat m <= Go.int64_max ->
    snd (escapeLoop n x0 y0 x y iters) <= snd (escapeLoop m x0 y0 x y iters).
Proof.
  induction n as [|n IH]; intros m x0 y0 x y iters Hnm Hi Hmax.
  - cbn [escapeLoop snd].
    apply (escapeLoop_range m x0 y0 x y iters Hi Hmax).
  - destruct m as [|m]; [lia|]. cbn [escapeLoop].
    destruct (2 <? _)%float; [lia|].
    rewrite int64_succ by lia.
    apply IH; lia.
Qed.


(** X8. The loop of [mandelbrotWorker] is left for good at its [break]: a
    pixel that escapes within [MaxIterations] has the same iteration count
    under every larger [MaxIterations], and no pixel's count goes down
    when [MaxIterations] goes up. *)
Theorem raising_the_budget_keeps_escaped_counts
    (pt : Point) (settings : Settings) (budget : Z) :
  0 <= MaxIterations settings <= budget -> budget <= Go.int64_max ->
  let raised := withMaxIterations budget settings in
  workerIters pt settings <= workerIters pt raised /\
  (workerIters pt settings < MaxIterations settings ->
   workerIters pt raised = workerIters pt settings).
Proof.
  intros HM Hb raised. unfold workerIters.
  change (workerStart pt raised) with (workerStart pt settings).
  destruct (workerStart pt settings) as [x0 y0].
  change (MaxIterations raised) with budget.
  split.
  - apply escapeLoop_longer_counts_on; lia.
  - intros Hlt. f_equal. apply escapeLoop_break_is_final; lia.
Qed.

Lemma raising_the_budget_keeps_escaped_counts_witness :
  workerIters (PointXY 257 469) settings0 = 18 /\
  workerIters (PointXY 257 469) (withMaxIterations 205 settings0) = 18.
Proof.
  assert (H18 : workerIters (PointXY 257 469) settings0 = 18)
    by (vm_compute; reflexivity).
  split; [exact H18|].
  destruct (raising_the_budget_keeps_escaped_counts (PointXY 257 469) settings0 205)
    as [_ Hsame].
  - change (MaxIterations settings0) with 200. lia.
  - unfold Go.int64_max. lia.
  - rewrite Hsame; [exact H18|].
    rewrite H18. change (MaxIterations settings0) with 200. lia.
Defined.

(** ** The run loop and its events *)

Lemma onKey_flags (st : MainState) (keyCode k : Z) (f : Settings -> Settings) :
  running (onKey keyCode k f st) = running st /\
  updateTexture (onKey keyCode k f st) = updateTexture st || (keyCode =? k).
Proof.
  unfold onKey. destruct (keyCode =? k); cbn [running updateTexture].
  - rewrite orb_true_r. split; reflexivity.
  - rewrite orb_false_r. split; reflexivity.
Qed.

Lemma handleEvent_flags (st : MainState) (e : Event) :
  running (handleEvent st e) = running st && negb (isQuit e) /\
  updateTexture (handleEvent st e) = updateTexture st || isMutation e.
Proof.
  destruct e as [|k|]; cbn [handleEvent isQuit isMutation negb].
  - cbn [stop running updateTexture]. rewrite andb_false_r, orb_false_r.
    split; reflexivity.
  - repeat match goal with
           | |- context [onKey ?c ?k ?f ?s] =>
               destruct (onKey_flags s c k f) as [-> ->]
           end.
    destruct (k =? K_q); cbn [stop running updateTexture negb].
    + rewrite andb_false_r, !orb_assoc. split; reflexivity.
    + rewrite andb_true_r, !orb_assoc. split; reflexivity.
  - rewrite andb_true_r, orb_false_r. split; reflexivity.
Qed.

Lemma pollEvents_flags (events : list Event) :
  forall st : MainState,
    running (pollEvents st events) = running st && negb (existsb isQuit events) /\
    updateTexture (pollEvents st events)
    = updateTexture st || existsb isMutation events.
Proof.
  unfold pollEvents.
  induction events as [|e events IH]; intros st; cbn [foldl existsb].
  - rewrite andb_true_r, orb_false_r. split; reflexivity.
  - destruct (IH (handleEvent st e)) as [-> ->].
    destruct (handleEvent_flags st e) as [-> ->].
    rewrite negb_orb, andb_assoc, orb_assoc. split; reflexivity.
Qed.

Lemma tick_running (st : MainState) (events : list Event) :
  running (tick st events) = running st && negb (existsb isQuit events).
Proof.
  unfold tick, renderIfDirty.
  destruct (updateTexture (pollEvents st events)); cbn [running];
    apply pollEvents_flags.
Qed.

Lemma runLoop_running (ticks : list (list Event)) :
  forall st : MainState,
    running (runLoop st ticks)
    = running st && forallb (fun events => negb (existsb isQuit events)) ticks.
Proof.
  induction ticks as [|events ticks IH]; intros st; cbn [runLoop forallb].
  - rewrite andb_true_r. reflexivity.
  - destruct (running st) eqn:Hr; [|exact Hr].
    rewrite IH, tick_running, Hr. reflexivity.
Qed.

Lemma runLoop_stopped (ticks : list (list Event)) (st : MainState) :
  running st = false -> runLoop st ticks = st.
Proof. intros Hr. destruct ticks; cbn [runLoop]; [|rewrite Hr]; reflexivity. Qed.

Lemma runLoop_app (ticks more : list (list Event)) :
  forall st : MainState,
    runLoop st (ticks ++ more) = runLoop (runLoop st ticks) more.
Proof.
  induction ticks as [|events ticks IH]; intros st; cbn [runLoop app].
  - reflexivity.
  - destruct (running st) eqn:Hr; [apply IH|].
    symmetry. apply runLoop_stopped, Hr.
Qed.

(** X9. Nothing sets [running] back to true: after the events of a tick it
    is true exactly when it was and none of them is a quit event or the key
    [q].  The run loop ends with the first tick that has one; the events
    behind it in that tick are still handled and the tick still dispatches
    its pass, and no later tick is looked at. *)
Theorem quit_ends_the_run_loop :
  (forall st events,
     running (pollEvents st events) = running st && negb (existsb isQuit events)) /\
  (forall st ticks,
     running (runLoop st ticks)
     = running st && forallb (fun events => negb (existsb isQuit events)) ticks) /\
  (forall st before events after,
     running st = true ->
     forallb (fun events => negb (existsb isQuit events)) before = true ->
     existsb isQuit events = true ->
     runLoop st (before ++ events :: after) = runLoop st (before ++ [events]) /\
     runLoop st (before ++ [events]) = tick (runLoop st before) events).
Proof.
  split; [intros st events; apply pollEvents_flags|].
  split; [intros st ticks; apply runLoop_running|].
  intros st before events after Hr Hnone Hquit.
  assert (Hb : running (runLoop st before) = true)
    by (rewrite runLoop_running, Hr, Hnone; reflexivity).
  assert (Hstep : runLoop st (before ++ [events]) = tick (runLoop st before) events).
  { rewrite runLoop_app. cbn [runLoop]. rewrite Hb. reflexivity. }
  split; [|exact Hstep].
  change (events :: after) with ([events] ++ after).
  rewrite app_assoc, runLoop_app. apply runLoop_stopped.
  rewrite Hstep, tick_running, Hb, Hquit. reflexivity.
Qed.

Lemma handleEvent_ignores (st : MainState) (e : Event) :
  isQuit e = false -> isMutation e = false -> handleEvent st e = st.
Proof.
  destruct e as [|k|]; cbn [isQuit isMutation handleEvent];
    [discriminate| |reflexivity].
  intros -> Hm.
  repeat (apply orb_false_iff in Hm as [Hm ?]).
  unfold onKey.
  repeat match goal with
         | H : Z.eqb ?a ?b = false |- _ => rewrite H; clear H
         end.
  reflexivity.
Qed.

(** X10. Events that are neither a quit nor one of the six keys (other
    keys, other event types) change nothing: configuration, flags, image
    and spawned workers stay as they are. *)
Theorem other_events_change_nothing (st : MainState) (events : list Event) :
  existsb isQuit events = false -> existsb isMutation events = false ->
  pollEvents st events = st /\ tick st events = renderIfDirty st.
Proof.
  intros Hq Hm.
  assert (Hp : pollEvents st events = st).
  { unfold pollEvents. induction events as [|e events IH]; [reflexivity|].
    cbn [existsb foldl] in *.
    apply orb_false_iff in Hq as [Hq1 Hq2]. apply orb_false_iff in Hm as [Hm1 Hm2].
    rewrite handleEvent_ignores by assumption. apply IH; assumption. }
  split; [exact Hp|]. unfold tick. rewrite Hp. reflexivity.
Qed.

Lemma other_events_change_nothing_witness :
  pollEvents (loopEntry (freshImage 2 2))
    [KeyboardEvent 97; OtherEvent; KeyboardEvent 32]
  = loopEntry (freshImage 2 2).
Proof.
  apply (other_events_change_nothing (loopEntry (freshImage 2 2))
           [KeyboardEvent 97; OtherEvent; KeyboardEvent 32]);
    vm_compute; reflexivity.
Defined.

(** X11. At a tick entered with [updateTexture] clear, as every tick of the
    run loop is, a pass is dispatched exactly when one of the tick's events
    is one of the six keys, whether or not the configuration ends up
    changed. *)
Theorem pass_dispatched_iff_a_key_fired (st : MainState) (events : list Event) :
  updateTexture st = false ->
  spawned (tick st events)
  = spawned st ++ (if existsb isMutation events
                   then ForceRender (mandelbrotImg st) else []).
Proof.
  intros Hclear.
  destruct (tick_protocol st events) as (_ & _ & _ & Hset & Hunset).
  destruct (pollEvents_flags events st) as [_ Hflag].
  rewrite Hclear in Hflag. cbn [orb] in Hflag.
  destruct (existsb isMutation events).
  - apply Hset, Hflag.
  - rewrite app_nil_r. apply Hunset, Hflag.
Qed.

Lemma pass_dispatched_iff_a_key_fired_witness :
  let st := loopEntry (freshImage 2 2) in
  length (spawned (tick st [KeyboardEvent K_LEFT; KeyboardEvent K_RIGHT])) = 8%nat /\
  length (spawned (tick st [KeyboardEvent 97])) = 4%nat.
Proof.
  intros st.
  rewrite (pass_dispatched_iff_a_key_fired st
             [KeyboardEvent K_LEFT; KeyboardEvent K_RIGHT] eq_refl).
  rewrite (pass_dispatched_iff_a_key_fired st [KeyboardEvent 97] eq_refl).
  vm_compute. split; reflexivity.
Defined.


Lemma wrap64_range (z : Z) : Go.int64_min <= Go.wrap64 z <= Go.int64_max.
Proof.
  unfold Go.wrap64, Go.int64_min, Go.int64_max.
  pose proof (Z.mod_pos_bound (z + 2 ^ 63) (2 ^ 64) ltac:(lia)). lia.
Qed.

Lemma wrap64_small (z : Z) :
  Go.int64_min <= z <= Go.int64_max -> Go.wrap64 z = z.
Proof.
  unfold Go.wrap64, Go.int64_min, Go.int64_max. intros H.
  rewrite Z.mod_small by lia. lia.
Qed.

Lemma wrap64_add_l (a b : Z) : Go.wrap64 (Go.wrap64 a + b) = Go.wrap64 (a + b).
Proof.
  unfold Go.wrap64.
  replace ((a + 2 ^ 63) mod 2 ^ 64 - 2 ^ 63 + b + 2 ^ 63)
    with ((a + 2 ^ 63) mod 2 ^ 64 + b) by lia.
  rewrite Z.add_mod_idemp_l by lia. do 2 f_equal. lia.
Qed.

Lemma handleEvent_MaxIterations (st : MainState) (e : Event) :
  Go.int64_min <= MaxIterations (settings st) <= Go.int64_max ->
  MaxIterations (settings (handleEvent st e))
  = Go.wrap64 (MaxIterations (settings st) + 5 * zoomBalance [e]).
Proof.
  intros HM. rewrite handleEvent_settings.
  destruct e as [|k|]; cbn [zoomBalance];
    try (rewrite wrap64_small by lia; lia).
  destruct (Z.eqb_spec k K_LEFT), (Z.eqb_spec k K_RIGHT), (Z.eqb_spec k K_DOWN),
    (Z.eqb_spec k K_UP), (Z.eqb_spec k K_EQUALS), (Z.eqb_spec k K_MINUS);
    try (exfalso; unfold K_LEFT, K_RIGHT, K_DOWN, K_UP, K_EQUALS, K_MINUS in *; lia);
    cbn [zoomIn zoomOut setCenterX setCenterY MaxIterations];
    try (rewrite wrap64_small by lia; lia);
    unfold Go.int64_add, Go.int64_sub; f_equal; lia.
Qed.

Lemma zoomBalance_cons (e : Event) (events : list Event) :
  zoomBalance (e :: events) = zoomBalance [e] + zoomBalance events.
Proof. destruct e; cbn [zoomBalance]; lia. Qed.

(** X12. After any sequence of events, of any length, [MaxIterations] is
    its initial value plus 5 per zoom-in and minus 5 per zoom-out, reduced
    to [int64] by two's complement wrap-around; a zoom-in followed by a
    zoom-out restores it even across the ends of [int64]. *)
Theorem MaxIterations_counts_zooms_modulo_2p64
    (st : MainState) (events : list Event) :
  Go.int64_min <= MaxIterations (settings st) <= Go.int64_max ->
  MaxIterations (settings (pollEvents st events))
  = Go.wrap64 (MaxIterations (settings st) + 5 * zoomBalance events).
Proof.
  unfold pollEvents. revert st.
  induction events as [|e events IH]; intros st HM.
  - cbn [foldl zoomBalance]. rewrite wrap64_small by lia. lia.
  - cbn [foldl]. rewrite IH, handleEvent_MaxIterations by
      (rewrite ?handleEvent_MaxIterations by exact HM; try apply wrap64_range; exact HM).
    rewrite wrap64_add_l, (zoomBalance_cons e events). f_equal. lia.
Qed.

Lemma MaxIterations_counts_zooms_modulo_2p64_witness :
  let st := {| settings := withMaxIterations (Go.int64_max - 2) settings0;
               mandelbrotImg := freshImage 2 2; running := true;
               updateTexture := false; spawned := [] |} in
  MaxIterations (settings (pollEvents st [KeyboardEvent K_EQUALS]))
  = Go.int64_min + 2 /\
  MaxIterations (settings (pollEvents st [KeyboardEvent K_EQUALS; KeyboardEvent K_MINUS]))
  = Go.int64_max - 2.
Proof.
  intros st.
  assert (HM : Go.int64_min <= MaxIterations (settings st) <= Go.int64_max)
    by (cbn; unfold Go.int64_min, Go.int64_max; lia).
  rewrite !(MaxIterations_counts_zooms_modulo_2p64 st _ HM).
  vm_compute. split; reflexivity.
Defined.


Lemma rendererView_onKey (st : MainState) (keyCode k : Z) (f : Settings -> Settings) :
  rendererView (onKey keyCode k f st) = RendererMain.onKey keyCode k f (rendererView st).
Proof.
  unfold onKey, RendererMain.onKey, rendererView. destruct (keyCode =? k); reflexivity.
Qed.

Lemma rendererView_handleEvent (st : MainState) (e : Event) :
  rendererView (handleEvent st e) = RendererMain.handleEvent (rendererView st) e.
Proof.
  destruct e as [|k|]; [reflexivity| |reflexivity].
  unfold handleEvent, RendererMain.handleEvent.
  rewrite !rendererView_onKey. unfold K_q.
  destruct (k =? 113); reflexivity.
Qed.

(** X13. The event switch of the renderer-based program, which writes the
    key codes as numbers, changes [settings] and [running] exactly as the
    switch of the framebuffer program does. *)
Theorem both_programs_read_events_alike (st : MainState) (events : list Event) :
  RendererMain.pollEvents (settings st, running st) events
  = (settings (pollEvents st events), running (pollEvents st events)).
Proof.
  change (RendererMain.pollEvents (rendererView st) events = rendererView (pollEvents st events)).
  unfold pollEvents, RendererMain.pollEvents. revert st.
  induction events as [|e events IH]; intros st; cbn [foldl]; [reflexivity|].
  rewrite <- rendererView_handleEvent. apply IH.
Qed.

(** ** The plane coordinates of the first row and column *)

Lemma is_finite_SF (x : float) :
  is_finite x = true ->
  (exists s, Prim2SF x = S754_zero s) \/ (exists s m e, Prim2SF x = S754_finite s m e).
Proof.
  unfold is_finite, is_nan, is_infinity.
  rewrite !FloatAxioms.eqb_spec, FloatAxioms.abs_spec.
  destruct (Prim2SF x) as [s|[]| |s m e]; cbn; try discriminate; intros _; eauto 10.
Qed.

Lemma ge_one_SF (w : float) :
  (1 <=? w)%float = true ->
  (exists s, Prim2SF w = S754_infinity s) \/ (exists s m e, Prim2SF w = S754_finite s m e).
Proof.
  rewrite FloatAxioms.leb_spec.
  destruct (Prim2SF w) as [s|s| |s m e]; try discriminate; intros _; eauto 10.
Qed.

(** [mapToRange] takes the lower end of the input range to the lower end of
    the output range, with no rounding. *)
Lemma mapToRange_lower_end (in_max out_min out_max : float) :
  (1 <=? in_max)%float = true ->
  is_finite out_min = true -> (out_min =? 0)%float = false ->
  is_finite (out_max - out_min) = true ->
  mapToRange 0 0 in_max out_min out_max = out_min.
Proof.
  intros Hw Hc Hnz Hd. unfold mapToRange.
  change (0 - 0)%float with 0%float.
  apply Prim2SF_inj.
  rewrite FloatAxioms.add_spec, FloatAxioms.div_spec, FloatAxioms.mul_spec,
    (FloatAxioms.sub_spec in_max).
  change (Prim2SF 0) with (S754_zero false).
  rewrite FloatAxioms.eqb_spec in Hnz. change (Prim2SF 0) with (S754_zero false) in Hnz.
  apply is_finite_SF in Hd. apply is_finite_SF in Hc. apply ge_one_SF in Hw.
  destruct Hc as [[s Ec]|(s & m & e & Ec)]; rewrite Ec in *.
  { destruct s; discriminate Hnz. }
  destruct Hw as [[sw Ew]|(sw & mw & ew & Ew)]; rewrite Ew;
    destruct Hd as [[sd Ed]|(sd & md & ed & Ed)]; rewrite Ed;
    destruct sw, sd; reflexivity.
Qed.

(** X14. The pixel column 0 and the pixel row 0 start exactly at
    [Min - Center.X] and [Min - Center.Y]: for a finite non-zero [Min], a
    finite [Max - Min] and [Width, Height >= 1] the map of 0 into
    [[Min, Max]] is [Min] itself, without rounding error, and the centre is
    subtracted from it. *)
Theorem first_pixel_sits_at_Min (pt : Point) (settings : Settings) :
  (1 <=? Width settings)%float = true ->
  (1 <=? Height settings)%float = true ->
  is_finite (Min settings) = true -> (Min settings =? 0)%float = false ->
  is_finite (Max settings - Min settings) = true ->
  (X pt = 0%float ->
   (workerStart pt settings).1 = (Min settings - X (Center settings))%float) /\
  (Y pt = 0%float ->
   (workerStart pt settings).2 = (Min settings - Y (Center settings))%float).
Proof.
  intros HW HH Hm Hnz Hd. unfold workerStart. cbn [fst snd].
  split; intros ->; rewrite mapToRange_lower_end by assumption; reflexivity.
Qed.

Lemma first_pixel_sits_at_Min_witness :
  workerStart (PointXY 0 0) settings0 = ((-2.84 - 0.5)%float, (-2.84 - 0.0)%float).
Proof.
  assert (HW : (1 <=? Width settings0)%float = true) by (vm_compute; reflexivity).
  assert (HH : (1 <=? Height settings0)%float = true) by (vm_compute; reflexivity).
  assert (Hm : is_finite (Min settings0) = true) by (vm_compute; reflexivity).
  assert (Hnz : (Min settings0 =? 0)%float = false) by (vm_compute; reflexivity).
  assert (Hd : is_finite (Max settings0 - Min settings0) = true)
    by (vm_compute; reflexivity).
  destruct (first_pixel_sits_at_Min (PointXY 0 0) settings0 HW HH Hm Hnz Hd)
    as [Hx Hy].
  specialize (Hx eq_refl). specialize (Hy eq_refl).
  destruct (workerStart (PointXY 0 0) settings0) as [x y]. cbn [fst snd] in *.
  rewrite Hx, Hy. reflexivity.
Defined.
